(** * OpenStates MCP server: tool handlers, query parameters, error propagation

    A shallow embedding of [app/config.py], [app/tools/*.py] and
    [app/server.py].  Every tool handler is an effectful Python coroutine:
    it writes log lines, reads the process-wide configuration, issues an
    HTTP GET through [httpx] and either returns the decoded body or raises.
    The embedding threads a [world] (the log and the list of requests that
    left the process) through a small state-and-exception monad.

    Python integers are [Z]; Python floats are binary64 [float]s; a dict
    used as a map is a [gmap] (the order of its keys is not kept); the
    network and the upstream API are a function from the request sent to
    what came back. *)

From Stdlib Require Import ZArith List PrimFloat.
From stdpp Require Import gmap strings pretty.

Local Open Scope string_scope.
Local Open Scope Z_scope.
Local Open Scope list_scope.
Set Warnings "-register-all".

(** ** Python values that travel in a query-parameter dict *)

Inductive pyval : Type :=
| PNone
| PBool (b : bool)
| PInt (n : Z)
| PFloat (x : float)
| PStr (s : string)
| PList (items : list string).

(** Python truthiness ([if value], [not value]). *)
Definition truthy (v : pyval) : bool :=
  match v with
  | PNone => false
  | PBool b => b
  | PInt n => negb (Z.eqb n 0)
  | PFloat x => negb (PrimFloat.eqb x 0%float)
  | PStr s => negb (String.eqb s "")
  | PList items => match items with [] => false | _ :: _ => true end
  end.

(** [value is not None] *)
Definition is_not_None (v : pyval) : bool :=
  match v with PNone => false | _ => true end.

(** An argument of type [str | None] and one of type [list[str] | None]. *)
Definition of_opt_str (o : option string) : pyval :=
  match o with None => PNone | Some s => PStr s end.

Definition of_opt_list (o : option (list string)) : pyval :=
  match o with None => PNone | Some l => PList l end.

(** What an f-string prints for a [str | None] argument. *)
Definition fstr (o : option string) : string :=
  match o with None => "None" | Some s => s end.

(** ** Decoded JSON documents ([response.json()])

    A decoded object is a Python dict; it is kept as the list of its
    members, in which every key occurs once.  A decoded string is a
    Python [str], a sequence of characters (code points); it is kept as
    its UTF-8 encoding. *)

Inductive json : Type :=
| JNull
| JBool (b : bool)
| JInt (n : Z)
| JFloat (x : float)
| JStr (s : string)
| JArr (items : list json)
| JObj (members : list (string * json)).

(** ** Exceptions *)

Inductive exn : Type :=
| ValueError (msg : string)
| ValueError_of (inner : exn)          (* [ValueError(e)], args = (e,) *)
| HTTPStatusError (status : Z) (msg : string)
| RequestError (msg : string)          (* httpx transport errors: connect, timeout, DNS *)
| JSONDecodeError (msg : string)
| AttributeError (msg : string)
| TypeError (msg : string)
| OSError (msg : string)               (* PermissionError and the like *)
| UnicodeDecodeError (msg : string)
| PsutilError (msg : string).          (* psutil.NoSuchProcess, psutil.AccessDenied *)

(** [str(e)]: an exception built from one argument prints that argument. *)
Fixpoint str (e : exn) : string :=
  match e with
  | ValueError msg => msg
  | ValueError_of inner => str inner
  | HTTPStatusError _ msg => msg
  | RequestError msg => msg
  | JSONDecodeError msg => msg
  | AttributeError msg => msg
  | TypeError msg => msg
  | OSError msg => msg
  | UnicodeDecodeError msg => msg
  | PsutilError msg => msg
  end.

(** [isinstance(e, ValueError)]; [json.JSONDecodeError] and
    [UnicodeDecodeError] derive from it. *)
Definition is_ValueError (e : exn) : bool :=
  match e with
  | ValueError _ | ValueError_of _ | JSONDecodeError _ | UnicodeDecodeError _ => true
  | _ => false
  end.

(** [isinstance(e, httpx.HTTPStatusError)] *)
Definition is_HTTPStatusError (e : exn) : bool :=
  match e with HTTPStatusError _ _ => true | _ => false end.

(** [isinstance(e, Exception)]: every class above derives from [Exception]. *)
Definition is_Exception (e : exn) : bool := true.

Inductive result (A : Type) : Type :=
| Ok (a : A)
| Raise (e : exn).
Arguments Ok {A} a.
Arguments Raise {A} e.

Definition result_bind {A B : Type} (r : result A) (k : A -> result B) : result B :=
  match r with Ok a => k a | Raise e => Raise e end.

(** ** Configuration ([app/config.py]) *)

Record Config : Type := {
  host : string;
  mcp_port : Z;
  openstates_log_level : string;
  openstates_debug : bool;
  environment : string;
  openstates_base_url : string;
  openstates_api_key : option string;
  openstates_timeout : Z;
  openstates_connect_timeout : Z;
  openstates_read_timeout : Z;
  openstates_rate_limit : Z;
  openstates_cache_ttl : Z;
  openstates_max_retries : Z;
  openstates_retry_delay : float
}.

(** The class defaults, i.e. [Config()] in an empty environment. *)
Definition default_config : Config := {|
  host := "0.0.0.0";
  mcp_port := 8795;
  openstates_log_level := "INFO";
  openstates_debug := false;
  environment := "production";
  openstates_base_url := "https://v3.openstates.org";
  openstates_api_key := None;
  openstates_timeout := 30;
  openstates_connect_timeout := 10;
  openstates_read_timeout := 30;
  openstates_rate_limit := 50;
  openstates_cache_ttl := 300;
  openstates_max_retries := 3;
  openstates_retry_delay := 1.0%float
|}.

(** ** Observable effects: log lines and outgoing requests *)

(** A FastMCP [Context] is only ever used as a logging sink. *)
Inductive Context : Type := ContextHandle (id : nat).

Inductive sink : Type :=
| CtxSink (c : Context)      (* [ctx.info] / [ctx.error] *)
| LoggerSink.                (* loguru's process-wide [logger] *)

Inductive level : Type := INFO | ERROR.

Record log_entry : Type := {
  entry_sink : sink;
  entry_level : level;
  entry_message : string
}.

Record request : Type := {
  req_method : string;
  req_url : string;
  req_params : gmap string pyval;
  req_headers : gmap string string;
  req_timeout : float
}.

(** What comes back from the upstream: [body] is what [response.json()]
    does (a decoded document, or the decoder's exception); [status_text]
    is the message [raise_for_status] puts in its [HTTPStatusError]. *)
Record response : Type := {
  status_code : Z;
  status_text : string;
  body : result json
}.

Inductive http_outcome : Type :=
| Failed (e : exn)             (* [client.get] itself raises *)
| Responded (r : response).

(** The upstream API and the network in front of it. *)
Definition Upstream : Type := request -> http_outcome.

Record world : Type := {
  logs : list log_entry;
  requests : list request
}.

(** ** The monad of handlers: state [world], exceptions [exn] *)

Definition M (A : Type) : Type := world -> result A * world.

Definition ret {A : Type} (a : A) : M A := fun w => (Ok a, w).

Definition bind {A B : Type} (m : M A) (k : A -> M B) : M B :=
  fun w =>
    match m w with
    | (Ok a, w') => k a w'
    | (Raise e, w') => (Raise e, w')
    end.

Definition raise {A : Type} (e : exn) : M A := fun w => (Raise e, w).

Definition lift {A : Type} (r : result A) : M A := fun w => (r, w).

(** [try: body  except C as e: handler e], with [catches] deciding
    [isinstance(e, C)]. *)
Definition try_except {A : Type} (body : M A) (catches : exn -> bool)
    (handler : exn -> M A) : M A :=
  fun w =>
    match body w with
    | (Ok a, w') => (Ok a, w')
    | (Raise e, w') => if catches e then handler e w' else (Raise e, w')
    end.

Notation "'let!' x ':=' m 'in' k" := (bind m (fun x => k))
  (at level 10, x name, m at level 100, k at level 200).
Notation "'do!' m 'in' k" := (bind m (fun _ => k))
  (at level 10, m at level 100, k at level 200).

Definition write_log (s : sink) (l : level) (message : string) : M unit :=
  fun w => (Ok tt, {| logs := logs w ++ [{| entry_sink := s; entry_level := l;
                                            entry_message := message |}];
                      requests := requests w |}).

(** ** The helpers every tool module repeats

    [bills.py], [people.py], [committees.py], [events.py] and
    [jurisdictions.py] each carry the same four private functions. *)

Definition API_KEY_MISSING : string :=
  "OPENSTATES_API_KEY not found in environment variables".

Definition _validate_api_key (config : Config) : M string :=
  if negb (truthy (of_opt_str (openstates_api_key config)))
  then raise (ValueError API_KEY_MISSING)
  else match openstates_api_key config with
       | Some key => ret key
       | None => raise (ValueError API_KEY_MISSING)
       end.

Definition sink_of (ctx : option Context) : sink :=
  match ctx with Some c => CtxSink c | None => LoggerSink end.

Definition _log_info (ctx : option Context) (message : string) : M unit :=
  match ctx with
  | Some c => write_log (CtxSink c) INFO message
  | None => write_log LoggerSink INFO message
  end.

Definition _log_error (ctx : option Context) (message : string) : M unit :=
  match ctx with
  | Some c => write_log (CtxSink c) ERROR message
  | None => write_log LoggerSink ERROR message
  end.

Definition _handle_api_error (ctx : option Context) (error : exn) : M unit :=
  let error_msg :=
    if is_HTTPStatusError error
    then "HTTP error: " +:+ str error
    else "API error: " +:+ str error in
  do! _log_error ctx error_msg in
  raise error.

(** ** httpx *)

(** [await client.get(url, params=..., headers=..., timeout=...)]: the
    request leaves the process, then the call returns or raises. *)
Definition client_get (upstream : Upstream) (url : string)
    (params : gmap string pyval) (headers : gmap string string)
    (timeout : float) : M response :=
  fun w =>
    let r := {| req_method := "GET"; req_url := url; req_params := params;
                req_headers := headers; req_timeout := timeout |} in
    let w' := {| logs := logs w; requests := requests w ++ [r] |} in
    match upstream r with
    | Failed e => (Raise e, w')
    | Responded resp => (Ok resp, w')
    end.

(** [Response.is_success] *)
Definition is_success (r : response) : bool :=
  Z.leb 200 (status_code r) && Z.leb (status_code r) 299.

(** [response.raise_for_status()] *)
Definition raise_for_status (r : response) : M unit :=
  if is_success r then ret tt
  else raise (HTTPStatusError (status_code r) (status_text r)).

(** [response.json()] *)
Definition response_json (r : response) : M json := lift (body r).

(** ** What the "Found N ..." log line needs from the decoded body *)

Fixpoint dict_get (members : list (string * json)) (key : string) (default : json) : json :=
  match members with
  | [] => default
  | (k, v) :: rest => if String.eqb k key then v else dict_get rest key default
  end.

(** [data.get(key, default)]: only a dict has [get]. *)
Definition json_get (data : json) (key : string) (default : json) : result json :=
  match data with
  | JObj members => Ok (dict_get members key default)
  | JArr _ => Raise (AttributeError "'list' object has no attribute 'get'")
  | JStr _ => Raise (AttributeError "'str' object has no attribute 'get'")
  | JInt _ => Raise (AttributeError "'int' object has no attribute 'get'")
  | JFloat _ => Raise (AttributeError "'float' object has no attribute 'get'")
  | JBool _ => Raise (AttributeError "'bool' object has no attribute 'get'")
  | JNull => Raise (AttributeError "'NoneType' object has no attribute 'get'")
  end.

(** In UTF-8 every character is one byte that starts it, followed by
    bytes of the form 10xxxxxx (128 to 191) that continue it. *)
Definition continues_character (byte : Ascii.ascii) : bool :=
  (128 <=? Ascii.N_of_ascii byte)%N && (Ascii.N_of_ascii byte <? 192)%N.

(** [len(s)] for a [str]: the number of its characters, that is, of the
    bytes of its encoding that start one. *)
Fixpoint str_len (s : string) : nat :=
  match s with
  | EmptyString => O
  | String byte rest =>
      if continues_character byte then str_len rest else S (str_len rest)
  end.

(** [len(x)] *)
Definition py_len (x : json) : result nat :=
  match x with
  | JArr items => Ok (length items)
  | JObj members => Ok (length members)
  | JStr s => Ok (str_len s)
  | JInt _ => Raise (TypeError "object of type 'int' has no len()")
  | JFloat _ => Raise (TypeError "object of type 'float' has no len()")
  | JBool _ => Raise (TypeError "object of type 'bool' has no len()")
  | JNull => Raise (TypeError "object of type 'NoneType' has no len()")
  end.

(** [len(data.get('results', []))] *)
Definition results_count (data : json) : result nat :=
  result_bind (json_get data "results" (JArr [])) py_len.

(** ** Building the query-parameter dict *)

Definition type_name (v : pyval) : string :=
  match v with
  | PNone => "NoneType"
  | PBool _ => "bool"
  | PInt _ => "int"
  | PFloat _ => "float"
  | PStr _ => "str"
  | PList _ => "list"
  end.

(** [params.setdefault(key, []).append(item)]: [setdefault] hands back
    the value already stored under [key], or stores and hands back a new
    empty list; only a list has [append]. *)
Definition setdefault_append (params : gmap string pyval) (key item : string)
    : result (gmap string pyval) :=
  match params !! key with
  | None => Ok (<[key := PList [item]]> params)
  | Some (PList items) => Ok (<[key := PList (items ++ [item])]> params)
  | Some v => Raise (AttributeError
                ("'" +:+ type_name v +:+ "' object has no attribute 'append'"))
  end.

(** [for item in items: params.setdefault(key, []).append(item)] *)
Fixpoint append_each (params : gmap string pyval) (key : string)
    (items : list string) : result (gmap string pyval) :=
  match items with
  | [] => Ok params
  | item :: rest =>
      result_bind (setdefault_append params key item)
                  (fun params' => append_each params' key rest)
  end.

(** [if arg: for item in arg: params.setdefault(key, []).append(item)] *)
Definition add_list_param (params : gmap string pyval) (key : string)
    (arg : option (list string)) : result (gmap string pyval) :=
  if truthy (of_opt_list arg)
  then match arg with
       | Some items => append_each params key items
       | None => Ok params
       end
  else Ok params.

(** [{key: value for key, value in param_fields.items() if keep(value)}] *)
Definition dict_comprehension (keep : pyval -> bool)
    (param_fields : list (string * pyval)) : list (string * pyval) :=
  List.filter (fun kv => keep (snd kv)) param_fields.

(** [params.update(other)] *)
Definition dict_update (params : gmap string pyval)
    (other : list (string * pyval)) : gmap string pyval :=
  fold_left (fun d kv => <[fst kv := snd kv]> d) other params.

(** The get-by-identifier handlers all build
    [params = {}; if include: params["include"] = include]. *)
Definition include_only (include : option (list string)) : gmap string pyval :=
  if truthy (of_opt_list include)
  then match include with
       | Some items => <["include" := PList items]> ∅
       | None => ∅
       end
  else ∅.

(** ** [app/tools/bills.py] *)

Module bills.

Record search_bills_kwargs : Type := {
  jurisdiction : option string;
  session : option string;
  chamber : option string;
  identifier : option (list string);
  classification : option string;
  subject : option (list string);
  updated_since : option string;
  created_since : option string;
  action_since : option string;
  sort : string;
  sponsor : option string;
  sponsor_classification : option string;
  q : option string;
  include : option (list string);
  page : Z;
  per_page : Z
}.

(** The signature's defaults: what a call that passes nothing gets. *)
Definition defaults : search_bills_kwargs := {|
  jurisdiction := None; session := None; chamber := None; identifier := None;
  classification := None; subject := None; updated_since := None;
  created_since := None; action_since := None; sort := "updated_desc";
  sponsor := None; sponsor_classification := None; q := None; include := None;
  page := 1; per_page := 10
|}.

Definition param_fields (kw : search_bills_kwargs) : list (string * pyval) :=
  [ ("jurisdiction", of_opt_str (jurisdiction kw));
    ("session", of_opt_str (session kw));
    ("chamber", of_opt_str (chamber kw));
    ("classification", of_opt_str (classification kw));
    ("updated_since", of_opt_str (updated_since kw));
    ("created_since", of_opt_str (created_since kw));
    ("action_since", of_opt_str (action_since kw));
    ("sort", PStr (sort kw));
    ("sponsor", of_opt_str (sponsor kw));
    ("sponsor_classification", of_opt_str (sponsor_classification kw));
    ("q", of_opt_str (q kw)) ].

(** Lines 178-208 of [search_bills]. *)
Definition search_bills_params (kw : search_bills_kwargs)
    : result (gmap string pyval) :=
  let params : gmap string pyval :=
    <["per_page" := PInt (Z.min (per_page kw) 100)]> (<["page" := PInt (page kw)]> ∅) in
  result_bind (add_list_param params "identifier" (identifier kw)) (fun params =>
  result_bind (add_list_param params "subject" (subject kw)) (fun params =>
  result_bind (add_list_param params "include" (include kw)) (fun params =>
  Ok (dict_update params (dict_comprehension truthy (param_fields kw)))))).

Definition search_bills (config : Config) (upstream : Upstream)
    (kw : search_bills_kwargs) (ctx : option Context) : M json :=
  do! _log_info ctx ("Searching bills with jurisdiction: " +:+ fstr (jurisdiction kw)
                     +:+ ", query: " +:+ fstr (q kw)) in
  let! api_key :=
    try_except (_validate_api_key config) is_ValueError
      (fun e => do! _log_error ctx (str e) in raise e) in
  let! params := lift (search_bills_params kw) in
  let headers : gmap string string := <["x-api-key" := api_key]> ∅ in
  try_except
    (let! response := client_get upstream "https://v3.openstates.org/bills"
                                 params headers 30.0%float in
     do! raise_for_status response in
     let! data := response_json response in
     let! found := lift (results_count data) in
     do! _log_info ctx ("Found " +:+ pretty found +:+ " bills") in
     ret data)
    is_Exception
    (fun e => do! _handle_api_error ctx e in ret JNull).

Definition get_bill_by_id (config : Config) (upstream : Upstream)
    (bill_uuid : string) (include : option (list string))
    (ctx : option Context) : M json :=
  do! _log_info ctx ("Getting bill by UUID: " +:+ bill_uuid) in
  let! api_key :=
    try_except (_validate_api_key config) is_ValueError
      (fun e => do! _log_error ctx (str e) in raise e) in
  let params := include_only include in
  let headers : gmap string string := <["x-api-key" := api_key]> ∅ in
  try_except
    (let! response := client_get upstream
                        ("https://v3.openstates.org/bills/ocd-bill/" +:+ bill_uuid)
                        params headers 30.0%float in
     do! raise_for_status response in
     do! _log_info ctx ("Successfully retrieved bill " +:+ bill_uuid) in
     response_json response)
    is_Exception
    (fun e => do! _handle_api_error ctx e in ret JNull).

Definition get_bill_details (config : Config) (upstream : Upstream)
    (jurisdiction session bill_id : string) (include : option (list string))
    (ctx : option Context) : M json :=
  do! _log_info ctx ("Getting bill details: " +:+ jurisdiction +:+ "/" +:+ session
                     +:+ "/" +:+ bill_id) in
  let! api_key :=
    try_except (_validate_api_key config) is_ValueError
      (fun e => do! _log_error ctx (str e) in raise e) in
  let params := include_only include in
  let headers : gmap string string := <["x-api-key" := api_key]> ∅ in
  try_except
    (let! response := client_get upstream
                        ("https://v3.openstates.org/bills/" +:+ jurisdiction +:+ "/"
                         +:+ session +:+ "/" +:+ bill_id)
                        params headers 30.0%float in
     do! raise_for_status response in
     do! _log_info ctx ("Successfully retrieved bill " +:+ jurisdiction +:+ "/"
                        +:+ session +:+ "/" +:+ bill_id) in
     response_json response)
    is_Exception
    (fun e => do! _handle_api_error ctx e in ret JNull).

End bills.

(** ** [app/tools/people.py] *)

Module people.

Record search_people_kwargs : Type := {
  jurisdiction : option string;
  name : option string;
  id : option (list string);
  org_classification : option string;
  district : option string;
  include : option (list string);
  page : Z;
  per_page : Z
}.

Definition defaults : search_people_kwargs := {|
  jurisdiction := None; name := None; id := None; org_classification := None;
  district := None; include := None; page := 1; per_page := 10
|}.

Definition param_fields (kw : search_people_kwargs) : list (string * pyval) :=
  [ ("jurisdiction", of_opt_str (jurisdiction kw));
    ("name", of_opt_str (name kw));
    ("org_classification", of_opt_str (org_classification kw));
    ("district", of_opt_str (district kw)) ].

(** Lines 132-152 of [search_people]. *)
Definition search_people_params (kw : search_people_kwargs)
    : result (gmap string pyval) :=
  let params : gmap string pyval :=
    <["per_page" := PInt (Z.min (per_page kw) 100)]> (<["page" := PInt (page kw)]> ∅) in
  result_bind (add_list_param params "id" (id kw)) (fun params =>
  result_bind (add_list_param params "include" (include kw)) (fun params =>
  Ok (dict_update params (dict_comprehension truthy (param_fields kw))))).

Definition search_people (config : Config) (upstream : Upstream)
    (kw : search_people_kwargs) (ctx : option Context) : M json :=
  do! _log_info ctx ("Searching people with jurisdiction: " +:+ fstr (jurisdiction kw)
                     +:+ ", name: " +:+ fstr (name kw)) in
  let! api_key :=
    try_except (_validate_api_key config) is_ValueError
      (fun e => do! _log_error ctx (str e) in raise e) in
  let! params := lift (search_people_params kw) in
  let headers : gmap string string := <["x-api-key" := api_key]> ∅ in
  try_except
    (let! response := client_get upstream "https://v3.openstates.org/people"
                                 params headers 30.0%float in
     do! raise_for_status response in
     let! data := response_json response in
     let! found := lift (results_count data) in
     do! _log_info ctx ("Found " +:+ pretty found +:+ " people") in
     ret data)
    is_Exception
    (fun e => do! _handle_api_error ctx e in ret JNull).

Section ByLocation.

(** What an f-string prints for a Python float (the shortest decimal that
    reads back as the same binary64); a builtin of the interpreter. *)
Variable float_repr : float -> string.

Definition get_legislators_by_location (config : Config) (upstream : Upstream)
    (latitude longitude : float) (ctx : option Context) : M json :=
  do! _log_info ctx ("Getting legislators for location: " +:+ float_repr latitude
                     +:+ ", " +:+ float_repr longitude) in
  let! api_key :=
    try_except (_validate_api_key config) is_ValueError
      (fun e => do! _log_error ctx (str e) in raise e) in
  let params : gmap string pyval :=
    <["lng" := PFloat longitude]> (<["lat" := PFloat latitude]> ∅) in
  let headers : gmap string string := <["x-api-key" := api_key]> ∅ in
  try_except
    (let! response := client_get upstream "https://v3.openstates.org/people.geo"
                                 params headers 30.0%float in
     do! raise_for_status response in
     do! _log_info ctx "Successfully retrieved legislators for location" in
     response_json response)
    is_Exception
    (fun e => do! _handle_api_error ctx e in ret JNull).

End ByLocation.

End people.

(** ** [app/tools/committees.py] *)

Module committees.

Record search_committees_kwargs : Type := {
  jurisdiction : option string;
  classification : option string;
  parent : option string;
  chamber : option string;
  include : option (list string);
  page : Z;
  per_page : Z
}.

Definition defaults : search_committees_kwargs := {|
  jurisdiction := None; classification := None; parent := None; chamber := None;
  include := None; page := 1; per_page := 20
|}.

Definition param_fields (kw : search_committees_kwargs) : list (string * pyval) :=
  [ ("jurisdiction", of_opt_str (jurisdiction kw));
    ("classification", of_opt_str (classification kw));
    ("parent", of_opt_str (parent kw));
    ("chamber", of_opt_str (chamber kw)) ].

(** Lines 126-143 of [search_committees]. *)
Definition search_committees_params (kw : search_committees_kwargs)
    : result (gmap string pyval) :=
  let params : gmap string pyval :=
    <["per_page" := PInt (Z.min (per_page kw) 100)]> (<["page" := PInt (page kw)]> ∅) in
  result_bind (add_list_param params "include" (include kw)) (fun params =>
  Ok (dict_update params (dict_comprehension truthy (param_fields kw)))).

(** This handler alone leaves its first [except] with [raise ValueError(e)]
    where the others have a bare [raise]. *)
Definition search_committees (config : Config) (upstream : Upstream)
    (kw : search_committees_kwargs) (ctx : option Context) : M json :=
  do! _log_info ctx ("Searching committees for jurisdiction: "
                     +:+ fstr (jurisdiction kw)) in
  let! api_key :=
    try_except (_validate_api_key config) is_ValueError
      (fun e => do! _log_error ctx (str e) in raise (ValueError_of e)) in
  let! params := lift (search_committees_params kw) in
  let headers : gmap string string := <["x-api-key" := api_key]> ∅ in
  try_except
    (let! response := client_get upstream "https://v3.openstates.org/committees"
                                 params headers 30.0%float in
     do! raise_for_status response in
     let! data := response_json response in
     let! found := lift (results_count data) in
     do! _log_info ctx ("Found " +:+ pretty found +:+ " committees") in
     ret data)
    is_Exception
    (fun e => do! _handle_api_error ctx e in ret JNull).

Definition get_committee_details (config : Config) (upstream : Upstream)
    (committee_id : string) (include : option (list string))
    (ctx : option Context) : M json :=
  do! _log_info ctx ("Getting committee details for: " +:+ committee_id) in
  let! api_key :=
    try_except (_validate_api_key config) is_ValueError
      (fun e => do! _log_error ctx (str e) in raise e) in
  let params := include_only include in
  let headers : gmap string string := <["x-api-key" := api_key]> ∅ in
  try_except
    (let! response := client_get upstream
                        ("https://v3.openstates.org/committees/" +:+ committee_id)
                        params headers 30.0%float in
     do! raise_for_status response in
     do! _log_info ctx ("Successfully retrieved committee " +:+ committee_id) in
     response_json response)
    is_Exception
    (fun e => do! _handle_api_error ctx e in ret JNull).

End committees.

(** ** [app/tools/events.py] *)

Module events.

Record search_events_kwargs : Type := {
  jurisdiction : option string;
  deleted : bool;
  before : option string;
  after : option string;
  require_bills : bool;
  include : option (list string);
  page : Z;
  per_page : Z
}.

Definition defaults : search_events_kwargs := {|
  jurisdiction := None; deleted := false; before := None; after := None;
  require_bills := false; include := None; page := 1; per_page := 20
|}.

Definition param_fields (kw : search_events_kwargs) : list (string * pyval) :=
  [ ("jurisdiction", of_opt_str (jurisdiction kw));
    ("deleted", PBool (deleted kw));
    ("before", of_opt_str (before kw));
    ("after", of_opt_str (after kw));
    ("require_bills", PBool (require_bills kw)) ].

(** Lines 129-149 of [search_events]; the comprehension keeps every value
    that [is not None]. *)
Definition search_events_params (kw : search_events_kwargs)
    : result (gmap string pyval) :=
  let params : gmap string pyval :=
    <["per_page" := PInt (Z.min (per_page kw) 100)]> (<["page" := PInt (page kw)]> ∅) in
  result_bind (add_list_param params "include" (include kw)) (fun params =>
  Ok (dict_update params (dict_comprehension is_not_None (param_fields kw)))).

Definition search_events (config : Config) (upstream : Upstream)
    (kw : search_events_kwargs) (ctx : option Context) : M json :=
  do! _log_info ctx ("Searching events for jurisdiction: " +:+ fstr (jurisdiction kw)) in
  let! api_key :=
    try_except (_validate_api_key config) is_ValueError
      (fun e => do! _log_error ctx (str e) in raise e) in
  let! params := lift (search_events_params kw) in
  let headers : gmap string string := <["x-api-key" := api_key]> ∅ in
  try_except
    (let! response := client_get upstream "https://v3.openstates.org/events"
                                 params headers 30.0%float in
     do! raise_for_status response in
     let! data := response_json response in
     let! found := lift (results_count data) in
     do! _log_info ctx ("Found " +:+ pretty found +:+ " events") in
     ret data)
    is_Exception
    (fun e => do! _handle_api_error ctx e in ret JNull).

Definition get_event_details (config : Config) (upstream : Upstream)
    (event_id : string) (include : option (list string))
    (ctx : option Context) : M json :=
  do! _log_info ctx ("Getting event details for: " +:+ event_id) in
  let! api_key :=
    try_except (_validate_api_key config) is_ValueError
      (fun e => do! _log_error ctx (str e) in raise e) in
  let params := include_only include in
  let headers : gmap string string := <["x-api-key" := api_key]> ∅ in
  try_except
    (let! response := client_get upstream
                        ("https://v3.openstates.org/events/" +:+ event_id)
                        params headers 30.0%float in
     do! raise_for_status response in
     do! _log_info ctx ("Successfully retrieved event " +:+ event_id) in
     response_json response)
    is_Exception
    (fun e => do! _handle_api_error ctx e in ret JNull).

End events.

(** ** [app/tools/jurisdictions.py] *)

Module jurisdictions.

Record get_jurisdictions_kwargs : Type := {
  classification : option string;
  include : option (list string);
  page : Z;
  per_page : Z
}.

Definition defaults : get_jurisdictions_kwargs := {|
  classification := None; include := None; page := 1; per_page := 52
|}.

Definition param_fields (kw : get_jurisdictions_kwargs) : list (string * pyval) :=
  [ ("classification", of_opt_str (classification kw)) ].

(** Lines 112-126 of [get_jurisdictions]. *)
Definition get_jurisdictions_params (kw : get_jurisdictions_kwargs)
    : result (gmap string pyval) :=
  let params : gmap string pyval :=
    <["per_page" := PInt (Z.min (per_page kw) 100)]> (<["page" := PInt (page kw)]> ∅) in
  result_bind (add_list_param params "include" (include kw)) (fun params =>
  Ok (dict_update params (dict_comprehension truthy (param_fields kw)))).

Definition get_jurisdictions (config : Config) (upstream : Upstream)
    (kw : get_jurisdictions_kwargs) (ctx : option Context) : M json :=
  do! _log_info ctx ("Getting list of jurisdictions with classification: "
                     +:+ fstr (classification kw)) in
  let! api_key :=
    try_except (_validate_api_key config) is_ValueError
      (fun e => do! _log_error ctx (str e) in raise e) in
  let! params := lift (get_jurisdictions_params kw) in
  let headers : gmap string string := <["x-api-key" := api_key]> ∅ in
  try_except
    (let! response := client_get upstream "https://v3.openstates.org/jurisdictions"
                                 params headers 30.0%float in
     do! raise_for_status response in
     let! data := response_json response in
     let! found := lift (results_count data) in
     do! _log_info ctx ("Found " +:+ pretty found +:+ " jurisdictions") in
     ret data)
    is_Exception
    (fun e => do! _handle_api_error ctx e in ret JNull).

Definition get_jurisdiction_details (config : Config) (upstream : Upstream)
    (jurisdiction_id : string) (include : option (list string))
    (ctx : option Context) : M json :=
  do! _log_info ctx ("Getting jurisdiction details for: " +:+ jurisdiction_id) in
  let! api_key :=
    try_except (_validate_api_key config) is_ValueError
      (fun e => do! _log_error ctx (str e) in raise e) in
  let params := include_only include in
  let headers : gmap string string := <["x-api-key" := api_key]> ∅ in
  try_except
    (let! response := client_get upstream
                        ("https://v3.openstates.org/jurisdictions/" +:+ jurisdiction_id)
                        params headers 30.0%float in
     do! raise_for_status response in
     do! _log_info ctx ("Successfully retrieved jurisdiction " +:+ jurisdiction_id) in
     response_json response)
    is_Exception
    (fun e => do! _handle_api_error ctx e in ret JNull).

End jurisdictions.

(** ** [app/server.py] *)

Module server.

(** What the host tells [status]: files, clocks and process counters.
    Times are in microseconds since the epoch, the resolution of
    [datetime]; [rss] is a byte count.

    A reading can also fail: [status] and [is_docker] guard none of their
    calls into [psutil] and the file system.  Each [..._error] field says
    whether the call named beside it raises, and what; the value that
    goes with a failing call is not looked at.  [proc_1_cgroup] holds the
    lines that iterating over the open file yields, in order, before the
    iteration ends, and [cgroup_read_error] says whether it ends by
    raising (the file cannot be opened, or a later part of it does not
    decode as UTF-8). *)
Record host_readings : Type := {
  pyproject_version : result (option string);
      (* opening and parsing pyproject.toml, then looking up project.version *)
  dockerenv_exists : bool;                 (* Path("/.dockerenv").exists() *)
  proc_1_cgroup : option (list string);    (* the lines of /proc/1/cgroup, if it exists *)
  process_create_time : Z;                 (* psutil.Process().create_time() *)
  clock_now : Z;                           (* datetime.now(UTC), first reading *)
  clock_now_isoformat : string;            (* datetime.now(UTC).isoformat(), second reading *)
  python_version : string;                 (* sys.version.split()[0] *)
  rss : N;                                 (* process.memory_info().rss *)
  cpu_percent_tenths : Z;                  (* round(process.cpu_percent(interval=0.1), 1), in tenths *)
  create_time_error : option exn;          (* psutil.Process() or process.create_time() *)
  dockerenv_stat_error : option exn;       (* Path("/.dockerenv").exists() *)
  cgroup_stat_error : option exn;          (* Path("/proc/1/cgroup").exists() *)
  cgroup_read_error : option exn;          (* Path("/proc/1/cgroup").open(...) and its lines *)
  memory_info_error : option exn;          (* process.memory_info() *)
  cpu_percent_error : option exn           (* process.cpu_percent(interval=0.1) *)
}.

(** A call into the host that raises [e] when its error field says so. *)
Definition host_call (failure : option exn) : result unit :=
  match failure with
  | Some e => Raise e
  | None => Ok tt
  end.

Definition get_version (h : host_readings) : string :=
  match pyproject_version h with
  | Ok (Some version) => version
  | Ok None => "unknown"
  | Raise _ => "unknown"
  end.

(** [needle in line] *)
Fixpoint contains (needle line : string) : bool :=
  String.prefix needle line
  || match line with
     | EmptyString => false
     | String _ rest => contains needle rest
     end.

(** [any("docker" in line for line in file)]: the lines are looked at
    in order, the first match ends the search, and an iteration that
    raises does so once the lines it yielded have all been looked at. *)
Definition any_line_contains (needle : string) (lines : list string)
    (failure : option exn) : result bool :=
  if existsb (contains needle) lines then Ok true
  else result_bind (host_call failure) (fun _ => Ok false).

(** [A or (B and any(...))]: the cgroup file is consulted only when
    /.dockerenv does not exist, and read only when it exists. *)
Definition is_docker (h : host_readings) : result bool :=
  result_bind (host_call (dockerenv_stat_error h)) (fun _ =>
  if dockerenv_exists h then Ok true
  else
    result_bind (host_call (cgroup_stat_error h)) (fun _ =>
    match proc_1_cgroup h with
    | Some lines => any_line_contains "docker" lines (cgroup_read_error h)
    | None => Ok false
    end)).

(** [int((datetime.now(UTC) - process_start).total_seconds())]: the
    difference is exact to the microsecond and [int] truncates toward 0. *)
Definition uptime_seconds (h : host_readings) : Z :=
  Z.quot (clock_now h - process_create_time h) 1000000.

(** Python's [divmod] on integers rounds the quotient down. *)
Definition divmod (a b : Z) : Z * Z := (a / b, a mod b).

(** [f"{n:02d}"]: at least two characters, zero-filled after the sign. *)
Definition format_02d (n : Z) : string :=
  let digits := pretty (Z.abs n) in
  if Z.ltb n 0 then "-" +:+ digits
  else if Nat.ltb (String.length digits) 2 then "0" +:+ digits
  else digits.

Definition uptime_parts (h : host_readings) : Z * Z * Z :=
  let '(hours, remainder) := divmod (uptime_seconds h) 3600 in
  let '(minutes, seconds) := divmod remainder 60 in
  (hours, minutes, seconds).

Definition format_uptime (parts : Z * Z * Z) : string :=
  let '(hours, minutes, seconds) := parts in
  format_02d hours +:+ ":" +:+ format_02d minutes +:+ ":" +:+ format_02d seconds.

(** Nearest integer to [num / den], ties to the even one. *)
Definition round_half_even (num den : Z) : Z :=
  let quotient := num / den in
  let twice := 2 * (num mod den) in
  if Z.ltb twice den then quotient
  else if Z.ltb den twice then quotient + 1
  else if Z.even quotient then quotient
  else quotient + 1.

(** [round(rss / 1024 / 1024, 1)], in tenths of a megabyte: dividing a
    byte count by a power of two is exact, and [round] then takes the
    nearest multiple of one tenth. *)
Definition memory_mb_tenths (h : host_readings) : Z :=
  round_half_even (Z.of_N (rss h) * 10) (1024 * 1024).

Record environment_info : Type := {
  runtime : string;
  docker : bool;
  env_python_version : string
}.

Record system_info : Type := {
  process_uptime : string;
  memory_mb : Z;        (* tenths *)
  cpu_percent : Z       (* tenths *)
}.

Record server_info : Type := {
  tools_available : list string;
  transport : string;
  api_base : string;
  server_host : string;
  port : Z;
  api_configured : bool
}.

Record status_report : Type := {
  status_field : string;
  service : string;
  version : string;
  timestamp : string;
  environment_section : environment_info;
  system_section : system_info;
  server_section : server_info
}.

Definition status (config : Config) (h : host_readings) : M status_report :=
  do! write_log LoggerSink INFO "Status check requested" in
  do! lift (host_call (create_time_error h)) in   (* psutil.Process(), create_time() *)
  let uptime := format_uptime (uptime_parts h) in
  let! docker_info := lift (is_docker h) in
  let environment := if docker_info then "docker" else "native" in
  do! lift (host_call (memory_info_error h)) in   (* process.memory_info() *)
  do! lift (host_call (cpu_percent_error h)) in   (* process.cpu_percent(interval=0.1) *)
  ret {|
    status_field := "healthy";
    service := "OpenStates MCP Server";
    version := get_version h;
    timestamp := clock_now_isoformat h;
    environment_section := {|
      runtime := environment;
      docker := docker_info;
      env_python_version := python_version h |};
    system_section := {|
      process_uptime := uptime;
      memory_mb := memory_mb_tenths h;
      cpu_percent := cpu_percent_tenths h |};
    server_section := {|
      tools_available := ["bills"; "people"; "committees"; "events"; "jurisdictions"];
      transport := "streamable-http";
      api_base := "https://v3.openstates.org";
      server_host := host config;
      port := mcp_port config;
      api_configured := truthy (of_opt_str (openstates_api_key config)) |}
  |}.

(** The tools [setup] imports, under their prefixed names. *)
Inductive tool_call : Type :=
| bills_search_bills (kw : bills.search_bills_kwargs)
| bills_get_bill_by_id (bill_uuid : string) (include : option (list string))
| bills_get_bill_details (jurisdiction session bill_id : string)
                         (include : option (list string))
| people_search_people (kw : people.search_people_kwargs)
| people_get_legislators_by_location (latitude longitude : float)
| committees_search_committees (kw : committees.search_committees_kwargs)
| committees_get_committee_details (committee_id : string)
                                   (include : option (list string))
| events_search_events (kw : events.search_events_kwargs)
| events_get_event_details (event_id : string) (include : option (list string))
| jurisdictions_get_jurisdictions (kw : jurisdictions.get_jurisdictions_kwargs)
| jurisdictions_get_jurisdiction_details (jurisdiction_id : string)
                                         (include : option (list string)).

Definition call_tool (float_repr : float -> string) (config : Config)
    (upstream : Upstream) (ctx : option Context) (call : tool_call) : M json :=
  match call with
  | bills_search_bills kw => bills.search_bills config upstream kw ctx
  | bills_get_bill_by_id bill_uuid include =>
      bills.get_bill_by_id config upstream bill_uuid include ctx
  | bills_get_bill_details jurisdiction session bill_id include =>
      bills.get_bill_details config upstream jurisdiction session bill_id include ctx
  | people_search_people kw => people.search_people config upstream kw ctx
  | people_get_legislators_by_location latitude longitude =>
      people.get_legislators_by_location float_repr config upstream
                                         latitude longitude ctx
  | committees_search_committees kw =>
      committees.search_committees config upstream kw ctx
  | committees_get_committee_details committee_id include =>
      committees.get_committee_details config upstream committee_id include ctx
  | events_search_events kw => events.search_events config upstream kw ctx
  | events_get_event_details event_id include =>
      events.get_event_details config upstream event_id include ctx
  | jurisdictions_get_jurisdictions kw =>
      jurisdictions.get_jurisdictions config upstream kw ctx
  | jurisdictions_get_jurisdiction_details jurisdiction_id include =>
      jurisdictions.get_jurisdiction_details config upstream jurisdiction_id include ctx
  end.

End server.

(** * Reasoning support *)

(** ** The common shape of the twelve handlers

    Every handler announces itself, checks the key, builds [params], and
    sends one GET inside [try ... except Exception].  [gateway] is that
    skeleton with the differences as arguments; each handler is shown
    below to be an instance of it, so facts proved once about [gateway]
    hold for all of them. *)

Definition finish_search (ctx : option Context) (suffix : string)
    (response : response) : M json :=
  let! data := response_json response in
  let! found := lift (results_count data) in
  do! _log_info ctx ("Found " +:+ pretty found +:+ suffix) in
  ret data.

Definition finish_get (ctx : option Context) (message : string)
    (response : response) : M json :=
  do! _log_info ctx message in
  response_json response.

Definition gateway (config : Config) (upstream : Upstream) (ctx : option Context)
    (announce : string) (reraised : exn -> exn)
    (build : result (gmap string pyval)) (url : string)
    (finish : response -> M json) : M json :=
  do! _log_info ctx announce in
  let! api_key :=
    try_except (_validate_api_key config) is_ValueError
      (fun e => do! _log_error ctx (str e) in raise (reraised e)) in
  let! params := lift build in
  let headers : gmap string string := <["x-api-key" := api_key]> ∅ in
  try_except
    (let! response := client_get upstream url params headers 30.0%float in
     do! raise_for_status response in
     finish response)
    is_Exception
    (fun e => do! _handle_api_error ctx e in ret JNull).

(** What happens once the request has left: the rest of the [try] block
    and its [except Exception]. *)
Definition settle (ctx : option Context) (finish : response -> M json)
    (outcome : http_outcome) : M json :=
  try_except
    (let! response := (fun w => match outcome with
                                | Failed e => (Raise e, w)
                                | Responded resp => (Ok resp, w)
                                end) in
     do! raise_for_status response in
     finish response)
    is_Exception
    (fun e => do! _handle_api_error ctx e in ret JNull).

Definition entry (ctx : option Context) (l : level) (message : string) : log_entry :=
  {| entry_sink := sink_of ctx; entry_level := l; entry_message := message |}.

Definition logged (w : world) (entries : list log_entry) : world :=
  {| logs := logs w ++ entries; requests := requests w |}.

Definition sent (w : world) (r : request) : world :=
  {| logs := logs w; requests := requests w ++ [r] |}.

(** [not config.openstates_api_key] *)
Definition api_key_missing (config : Config) : bool :=
  negb (truthy (of_opt_str (openstates_api_key config))).

(** The message [_handle_api_error] writes for [e]. *)
Definition failure_line (e : exn) : string :=
  if is_HTTPStatusError e then "HTTP error: " +:+ str e else "API error: " +:+ str e.


(** ** Views of a tool call

    The parts of a call that the properties below speak about, read off
    the handler the dispatcher selects. *)

Import server.

(** The first log line of the handler. *)
Definition announcement (float_repr : float -> string) (call : tool_call) : string :=
  match call with
  | bills_search_bills kw =>
      "Searching bills with jurisdiction: " +:+ fstr (bills.jurisdiction kw)
      +:+ ", query: " +:+ fstr (bills.q kw)
  | bills_get_bill_by_id bill_uuid _ => "Getting bill by UUID: " +:+ bill_uuid
  | bills_get_bill_details jurisdiction session bill_id _ =>
      "Getting bill details: " +:+ jurisdiction +:+ "/" +:+ session +:+ "/" +:+ bill_id
  | people_search_people kw =>
      "Searching people with jurisdiction: " +:+ fstr (people.jurisdiction kw)
      +:+ ", name: " +:+ fstr (people.name kw)
  | people_get_legislators_by_location latitude longitude =>
      "Getting legislators for location: " +:+ float_repr latitude
      +:+ ", " +:+ float_repr longitude
  | committees_search_committees kw =>
      "Searching committees for jurisdiction: " +:+ fstr (committees.jurisdiction kw)
  | committees_get_committee_details committee_id _ =>
      "Getting committee details for: " +:+ committee_id
  | events_search_events kw =>
      "Searching events for jurisdiction: " +:+ fstr (events.jurisdiction kw)
  | events_get_event_details event_id _ => "Getting event details for: " +:+ event_id
  | jurisdictions_get_jurisdictions kw =>
      "Getting list of jurisdictions with classification: "
      +:+ fstr (jurisdictions.classification kw)
  | jurisdictions_get_jurisdiction_details jurisdiction_id _ =>
      "Getting jurisdiction details for: " +:+ jurisdiction_id
  end.

(** What the first [except ValueError] raises for a caught [e]. *)
Definition reraised_as (call : tool_call) : exn -> exn :=
  match call with
  | committees_search_committees _ => ValueError_of
  | _ => fun e => e
  end.

(** The query-parameter dict the handler builds. *)
Definition built_params (call : tool_call) : result (gmap string pyval) :=
  match call with
  | bills_search_bills kw => bills.search_bills_params kw
  | people_search_people kw => people.search_people_params kw
  | committees_search_committees kw => committees.search_committees_params kw
  | events_search_events kw => events.search_events_params kw
  | jurisdictions_get_jurisdictions kw => jurisdictions.get_jurisdictions_params kw
  | people_get_legislators_by_location latitude longitude =>
      Ok (<["lng" := PFloat longitude]> (<["lat" := PFloat latitude]> ∅))
  | bills_get_bill_by_id _ include
  | bills_get_bill_details _ _ _ include
  | committees_get_committee_details _ include
  | events_get_event_details _ include
  | jurisdictions_get_jurisdiction_details _ include => Ok (include_only include)
  end.

(** The URL the handler requests. *)
Definition endpoint (call : tool_call) : string :=
  match call with
  | bills_search_bills _ => "https://v3.openstates.org/bills"
  | bills_get_bill_by_id bill_uuid _ =>
      "https://v3.openstates.org/bills/ocd-bill/" +:+ bill_uuid
  | bills_get_bill_details jurisdiction session bill_id _ =>
      "https://v3.openstates.org/bills/" +:+ jurisdiction +:+ "/" +:+ session
      +:+ "/" +:+ bill_id
  | people_search_people _ => "https://v3.openstates.org/people"
  | people_get_legislators_by_location _ _ => "https://v3.openstates.org/people.geo"
  | committees_search_committees _ => "https://v3.openstates.org/committees"
  | committees_get_committee_details committee_id _ =>
      "https://v3.openstates.org/committees/" +:+ committee_id
  | events_search_events _ => "https://v3.openstates.org/events"
  | events_get_event_details event_id _ =>
      "https://v3.openstates.org/events/" +:+ event_id
  | jurisdictions_get_jurisdictions _ => "https://v3.openstates.org/jurisdictions"
  | jurisdictions_get_jurisdiction_details jurisdiction_id _ =>
      "https://v3.openstates.org/jurisdictions/" +:+ jurisdiction_id
  end.

(** For the five list operations, the tail of their "Found N ..." line. *)
Definition found_suffix (call : tool_call) : option string :=
  match call with
  | bills_search_bills _ => Some " bills"
  | people_search_people _ => Some " people"
  | committees_search_committees _ => Some " committees"
  | events_search_events _ => Some " events"
  | jurisdictions_get_jurisdictions _ => Some " jurisdictions"
  | _ => None
  end.

(** For the get-by-identifier operations, their line after a 2xx. *)
Definition retrieved_line (call : tool_call) : string :=
  match call with
  | bills_get_bill_by_id bill_uuid _ => "Successfully retrieved bill " +:+ bill_uuid
  | bills_get_bill_details jurisdiction session bill_id _ =>
      "Successfully retrieved bill " +:+ jurisdiction +:+ "/" +:+ session
      +:+ "/" +:+ bill_id
  | people_get_legislators_by_location _ _ =>
      "Successfully retrieved legislators for location"
  | committees_get_committee_details committee_id _ =>
      "Successfully retrieved committee " +:+ committee_id
  | events_get_event_details event_id _ => "Successfully retrieved event " +:+ event_id
  | jurisdictions_get_jurisdiction_details jurisdiction_id _ =>
      "Successfully retrieved jurisdiction " +:+ jurisdiction_id
  | _ => ""
  end.

(** The rest of the [try] block after [raise_for_status]. *)
Definition finisher (ctx : option Context) (call : tool_call) : response -> M json :=
  match found_suffix call with
  | Some suffix => finish_search ctx suffix
  | None => finish_get ctx (retrieved_line call)
  end.

Definition is_list_operation (call : tool_call) : bool :=
  match found_suffix call with Some _ => true | None => false end.

(** The [per_page] argument of a list operation. *)
Definition per_page_of (call : tool_call) : option Z :=
  match call with
  | bills_search_bills kw => Some (bills.per_page kw)
  | people_search_people kw => Some (people.per_page kw)
  | committees_search_committees kw => Some (committees.per_page kw)
  | events_search_events kw => Some (events.per_page kw)
  | jurisdictions_get_jurisdictions kw => Some (jurisdictions.per_page kw)
  | _ => None
  end.

(** The scalar filter arguments of a list operation, by parameter name:
    the handler's own [param_fields]. *)
Definition scalar_filters (call : tool_call) : list (string * pyval) :=
  match call with
  | bills_search_bills kw => bills.param_fields kw
  | people_search_people kw => people.param_fields kw
  | committees_search_committees kw => committees.param_fields kw
  | events_search_events kw => events.param_fields kw
  | jurisdictions_get_jurisdictions kw => jurisdictions.param_fields kw
  | _ => []
  end.

(** The list-valued filter arguments of a list operation, by name. *)
Definition list_filters (call : tool_call) : list (string * option (list string)) :=
  match call with
  | bills_search_bills kw =>
      [ ("identifier", bills.identifier kw); ("subject", bills.subject kw);
        ("include", bills.include kw) ]
  | people_search_people kw =>
      [ ("id", people.id kw); ("include", people.include kw) ]
  | committees_search_committees kw => [ ("include", committees.include kw) ]
  | events_search_events kw => [ ("include", events.include kw) ]
  | jurisdictions_get_jurisdictions kw => [ ("include", jurisdictions.include kw) ]
  | _ => []
  end.

(** The list operations whose comprehension tests [if value]; the fifth,
    [search_events], tests [if value is not None]. *)
Definition keeps_only_truthy (call : tool_call) : bool :=
  match call with
  | bills_search_bills _ | people_search_people _
  | committees_search_committees _ | jurisdictions_get_jurisdictions _ => true
  | _ => false
  end.

(** An explicitly empty [str | None] argument, replaced by an omitted one. *)
Definition drop_empty (o : option string) : option string :=
  match o with
  | Some s => if String.eqb s "" then None else Some s
  | None => None
  end.

(** The same call with every empty [str | None] filter left out. *)
Definition without_empty_filters (call : tool_call) : tool_call :=
  match call with
  | bills_search_bills kw =>
      bills_search_bills {|
        bills.jurisdiction := drop_empty (bills.jurisdiction kw);
        bills.session := drop_empty (bills.session kw);
        bills.chamber := drop_empty (bills.chamber kw);
        bills.identifier := bills.identifier kw;
        bills.classification := drop_empty (bills.classification kw);
        bills.subject := bills.subject kw;
        bills.updated_since := drop_empty (bills.updated_since kw);
        bills.created_since := drop_empty (bills.created_since kw);
        bills.action_since := drop_empty (bills.action_since kw);
        bills.sort := bills.sort kw;
        bills.sponsor := drop_empty (bills.sponsor kw);
        bills.sponsor_classification := drop_empty (bills.sponsor_classification kw);
        bills.q := drop_empty (bills.q kw);
        bills.include := bills.include kw;
        bills.page := bills.page kw;
        bills.per_page := bills.per_page kw |}
  | people_search_people kw =>
      people_search_people {|
        people.jurisdiction := drop_empty (people.jurisdiction kw);
        people.name := drop_empty (people.name kw);
        people.id := people.id kw;
        people.org_classification := drop_empty (people.org_classification kw);
        people.district := drop_empty (people.district kw);
        people.include := people.include kw;
        people.page := people.page kw;
        people.per_page := people.per_page kw |}
  | committees_search_committees kw =>
      committees_search_committees {|
        committees.jurisdiction := drop_empty (committees.jurisdiction kw);
        committees.classification := drop_empty (committees.classification kw);
        committees.parent := drop_empty (committees.parent kw);
        committees.chamber := drop_empty (committees.chamber kw);
        committees.include := committees.include kw;
        committees.page := committees.page kw;
        committees.per_page := committees.per_page kw |}
  | events_search_events kw =>
      events_search_events {|
        events.jurisdiction := drop_empty (events.jurisdiction kw);
        events.deleted := events.deleted kw;
        events.before := drop_empty (events.before kw);
        events.after := drop_empty (events.after kw);
        events.require_bills := events.require_bills kw;
        events.include := events.include kw;
        events.page := events.page kw;
        events.per_page := events.per_page kw |}
  | jurisdictions_get_jurisdictions kw =>
      jurisdictions_get_jurisdictions {|
        jurisdictions.classification := drop_empty (jurisdictions.classification kw);
        jurisdictions.include := jurisdictions.include kw;
        jurisdictions.page := jurisdictions.page kw;
        jurisdictions.per_page := jurisdictions.per_page kw |}
  | other => other
  end.

(** Two configurations that agree on every field except the base URL and
    the three timeouts. *)
Definition same_but_url_and_timeouts (c1 c2 : Config) : Prop :=
  host c1 = host c2 /\ mcp_port c1 = mcp_port c2
  /\ openstates_log_level c1 = openstates_log_level c2
  /\ openstates_debug c1 = openstates_debug c2
  /\ environment c1 = environment c2
  /\ openstates_api_key c1 = openstates_api_key c2
  /\ openstates_rate_limit c1 = openstates_rate_limit c2
  /\ openstates_cache_ttl c1 = openstates_cache_ttl c2
  /\ openstates_max_retries c1 = openstates_max_retries c2
  /\ openstates_retry_delay c1 = openstates_retry_delay c2.

(** The requests a run added to the world's list. *)
Definition issues {A : Type} (m : M A) (w : world) (batch : list request) : Prop :=
  requests (snd (m w)) = requests w ++ batch.

(** A parameter dict with a non-empty list filter stored under [key]. *)
Definition with_list (params : gmap string pyval) (key : string)
    (arg : option (list string)) : gmap string pyval :=
  match arg with
  | Some (item :: rest) => <[key := PList (item :: rest)]> params
  | _ => params
  end.

(** What [params.update({... if keep(value)})] leaves under [key], when
    [before] was there beforehand: the last kept field named [key] wins. *)
Fixpoint after_update (keep : pyval -> bool) (param_fields : list (string * pyval))
    (key : string) (before : option pyval) : option pyval :=
  match param_fields with
  | [] => before
  | (k, v) :: rest =>
      after_update keep rest key
        (if String.eqb k key then (if keep v then Some v else before) else before)
  end.

(** The dict literal [{"page": page, "per_page": min(per_page, 100)}]. *)
Definition paged (page per_page : Z) : gmap string pyval :=
  <["per_page" := PInt (Z.min per_page 100)]> (<["page" := PInt page]> ∅).

Definition page_of (call : tool_call) : option Z :=
  match call with
  | bills_search_bills kw => Some (bills.page kw)
  | people_search_people kw => Some (people.page kw)
  | committees_search_committees kw => Some (committees.page kw)
  | events_search_events kw => Some (events.page kw)
  | jurisdictions_get_jurisdictions kw => Some (jurisdictions.page kw)
  | _ => None
  end.

(** The dict of a list operation just before [params.update]. *)
Definition stored_lists (call : tool_call) : gmap string pyval :=
  fold_left (fun params filter => with_list params (fst filter) (snd filter))
            (list_filters call)
            (match page_of call, per_page_of call with
             | Some page, Some per_page => paged page per_page
             | _, _ => ∅
             end).

(** The test a list operation's comprehension applies to each value. *)
Definition kept (call : tool_call) : pyval -> bool :=
  match call with
  | events_search_events _ => is_not_None
  | _ => truthy
  end.

(** The request a handler sends when the configured key is [key] and its
    parameter dict is [params]. *)
Definition request_for (call : tool_call) (key : string)
    (params : gmap string pyval) : request :=
  {| req_method := "GET"; req_url := endpoint call; req_params := params;
     req_headers := <["x-api-key" := key]> ∅; req_timeout := 30.0%float |}.

(** ** Concrete inputs for worked examples *)

(** The default configuration with an API key set. *)
Definition config_with_key (key : string) : Config := {|
  host := host default_config;
  mcp_port := mcp_port default_config;
  openstates_log_level := openstates_log_level default_config;
  openstates_debug := openstates_debug default_config;
  environment := environment default_config;
  openstates_base_url := openstates_base_url default_config;
  openstates_api_key := Some key;
  openstates_timeout := openstates_timeout default_config;
  openstates_connect_timeout := openstates_connect_timeout default_config;
  openstates_read_timeout := openstates_read_timeout default_config;
  openstates_rate_limit := openstates_rate_limit default_config;
  openstates_cache_ttl := openstates_cache_ttl default_config;
  openstates_max_retries := openstates_max_retries default_config;
  openstates_retry_delay := openstates_retry_delay default_config
|}.

(** An upstream nobody can reach. *)
Definition unreachable : Upstream := fun _ => Failed (RequestError "unreachable").

(** An upstream that answers every request with the same response. *)
Definition always (resp : response) : Upstream := fun _ => Responded resp.

(** A process that has logged and sent nothing yet. *)
Definition fresh : world := {| logs := []; requests := [] |}.

(** A stand-in printer for floats, for examples that have none to print. *)
Definition no_floats : float -> string := fun _ => "".

(** A body with eight results and a pagination object. *)
Definition eight_results : json :=
  JObj [("results", JArr [JInt 1; JInt 2; JInt 3; JInt 4;
                          JInt 5; JInt 6; JInt 7; JInt 8]);
        ("pagination", JObj [("page", JInt 1); ("max_page", JInt 1)])].

Definition ok_with (data : json) : response :=
  {| status_code := 200; status_text := "OK"; body := Ok data |}.

(** [search_bills(jurisdiction="ca", q="budget", per_page=10)] *)
Definition budget_search : tool_call :=
  bills_search_bills
    {| bills.jurisdiction := Some "ca"; bills.session := None;
       bills.chamber := None; bills.identifier := None;
       bills.classification := None; bills.subject := None;
       bills.updated_since := None; bills.created_since := None;
       bills.action_since := None; bills.sort := "updated_desc";
       bills.sponsor := None; bills.sponsor_classification := None;
       bills.q := Some "budget"; bills.include := None;
       bills.page := 1; bills.per_page := 10 |}.


(** The same host ninety minutes and five seconds after the process
    started. *)
Definition ninety_minutes_in : host_readings := {|
  pyproject_version := Ok (Some "0.1.0");
  dockerenv_exists := false;
  proc_1_cgroup := None;
  process_create_time := 1700000010000000;
  clock_now := 1700005415000000;
  clock_now_isoformat := "2023-11-14T23:43:35+00:00";
  python_version := "3.12.0";
  rss := 50331648;
  cpu_percent_tenths := 0;
  create_time_error := None;
  dockerenv_stat_error := None;
  cgroup_stat_error := None;
  cgroup_read_error := None;
  memory_info_error := None;
  cpu_percent_error := None
|}.

(** The first exception raised once a request has been answered, if any:
    by [client.get], by [raise_for_status], by [response.json()], or by
    counting the results. *)
Definition outcome_error (call : tool_call) (outcome : http_outcome) : option exn :=
  match outcome with
  | Failed e => Some e
  | Responded resp =>
      if is_success resp then
        match body resp with
        | Raise e => Some e
        | Ok data =>
            if is_list_operation call then
              match results_count data with
              | Raise e => Some e
              | Ok _ => None
              end
            else None
        end
      else Some (HTTPStatusError (status_code resp) (status_text resp))
  end.

(** ** The course of a call once its request has been answered

    The handler's result and the log lines it writes after its opening
    line, as level and text: read off the [try] block of the list handlers
    (decode, count, "Found N ...", return) and of the get-by-identifier
    handlers ("Successfully retrieved ...", then decode and return), and
    off [_handle_api_error]. *)
Definition transcript (call : tool_call) (outcome : http_outcome)
    : result json * list (level * string) :=
  match outcome with
  | Failed e => (Raise e, [(ERROR, failure_line e)])
  | Responded resp =>
      if is_success resp then
        match found_suffix call, body resp with
        | Some suffix, Ok data =>
            match results_count data with
            | Ok found => (Ok data, [(INFO, "Found " +:+ pretty found +:+ suffix)])
            | Raise e => (Raise e, [(ERROR, failure_line e)])
            end
        | Some _, Raise e => (Raise e, [(ERROR, failure_line e)])
        | None, Ok data => (Ok data, [(INFO, retrieved_line call)])
        | None, Raise e =>
            (Raise e, [(INFO, retrieved_line call); (ERROR, failure_line e)])
        end
      else
        (Raise (HTTPStatusError (status_code resp) (status_text resp)),
         [(ERROR, failure_line (HTTPStatusError (status_code resp) (status_text resp)))])
  end.

(** Log lines, given as level and text, written to the sink of [ctx]. *)
Definition written (ctx : option Context) (lines : list (level * string))
    : list log_entry :=
  map (fun line => entry ctx (fst line) (snd line)) lines.

(** A response with the given status, reason text and body. *)
Definition answer (code : Z) (text : string) (content : result json) : response :=
  {| status_code := code; status_text := text; body := content |}.

(** [get_bill_details("invalid", "invalid", "invalid-bill-99999999")] *)
Definition invalid_bill : tool_call :=
  bills_get_bill_details "invalid" "invalid" "invalid-bill-99999999" None.

(** The [include] argument of a get-by-identifier operation. *)
Definition include_argument (call : tool_call) : option (option (list string)) :=
  match call with
  | bills_get_bill_by_id _ include
  | bills_get_bill_details _ _ _ include
  | committees_get_committee_details _ include
  | events_get_event_details _ include
  | jurisdictions_get_jurisdiction_details _ include => Some include
  | _ => None
  end.

(** The two decimal digits of a number between 0 and 99, tens first. *)
Definition two_digits (n : Z) : string :=
  String (Ascii.ascii_of_N (48 + Z.to_N (n / 10)))
         (String (Ascii.ascii_of_N (48 + Z.to_N (n mod 10))) "").


(** A host without /.dockerenv whose cgroup file names a docker slice. *)
Definition cgroup_names_docker : host_readings := {|
  pyproject_version := Ok (Some "0.1.0");
  dockerenv_exists := false;
  proc_1_cgroup := Some ["12:pids:/"; "11:cpu:/docker/0a1b2c"];
  process_create_time := 1700000010000000;
  clock_now := 1700005415000000;
  clock_now_isoformat := "2023-11-14T23:43:35+00:00";
  python_version := "3.12.0";
  rss := 50331648;
  cpu_percent_tenths := 0;
  create_time_error := None;
  dockerenv_stat_error := None;
  cgroup_stat_error := None;
  cgroup_read_error := None;
  memory_info_error := None;
  cpu_percent_error := None
|}.
Lemma log_info_run ctx message w :
  _log_info ctx message w = (Ok tt, logged w [entry ctx INFO message]).
Proof. destruct ctx; reflexivity. Qed.

Lemma log_error_run ctx message w :
  _log_error ctx message w = (Ok tt, logged w [entry ctx ERROR message]).
Proof. destruct ctx; reflexivity. Qed.

Lemma handle_api_error_run ctx e w :
  _handle_api_error ctx e w = (Raise e, logged w [entry ctx ERROR (failure_line e)]).
Proof.
  unfold _handle_api_error, bind, failure_line.
  rewrite log_error_run. reflexivity.
Qed.

Lemma api_key_missing_false config :
  api_key_missing config = false ->
  exists key, openstates_api_key config = Some key /\ key <> "".
Proof.
  unfold api_key_missing. destruct (openstates_api_key config) as [key|]; simpl.
  - intros H. exists key. split; [reflexivity|]. intros ->. discriminate H.
  - discriminate.
Qed.

Lemma validate_api_key_missing config w :
  api_key_missing config = true ->
  _validate_api_key config w = (Raise (ValueError API_KEY_MISSING), w).
Proof.
  unfold api_key_missing, _validate_api_key. intros ->. reflexivity.
Qed.

Lemma validate_api_key_present config key w :
  openstates_api_key config = Some key -> api_key_missing config = false ->
  _validate_api_key config w = (Ok key, w).
Proof.
  unfold api_key_missing, _validate_api_key. intros Hk H.
  rewrite H, Hk. reflexivity.
Qed.

Lemma logged_logged w xs ys : logged (logged w xs) ys = logged w (xs ++ ys).
Proof. unfold logged; simpl. by rewrite <- app_assoc. Qed.

(** Without a key the handler stops after two log lines. *)
Lemma gateway_missing_key config upstream ctx announce reraised build url finish w :
  api_key_missing config = true ->
  gateway config upstream ctx announce reraised build url finish w
  = (Raise (reraised (ValueError API_KEY_MISSING)),
     logged w [entry ctx INFO announce; entry ctx ERROR API_KEY_MISSING]).
Proof.
  intros Hmiss. unfold gateway, bind, try_except.
  rewrite log_info_run, (validate_api_key_missing _ _ Hmiss). simpl.
  rewrite log_error_run. unfold raise. by rewrite logged_logged.
Qed.

(** With a key exactly one request leaves, and [settle] takes over. *)
Lemma gateway_with_key config upstream ctx announce reraised params url finish key w :
  openstates_api_key config = Some key -> api_key_missing config = false ->
  let r := {| req_method := "GET"; req_url := url; req_params := params;
              req_headers := <["x-api-key" := key]> ∅;
              req_timeout := 30.0%float |} in
  gateway config upstream ctx announce reraised (Ok params) url finish w
  = settle ctx finish (upstream r) (sent (logged w [entry ctx INFO announce]) r).
Proof.
  intros Hk Hpresent r. unfold gateway, settle, bind, try_except at 1.
  rewrite log_info_run, (validate_api_key_present _ _ _ Hk Hpresent).
  unfold lift, try_except, client_get, bind. fold r.
  destruct (upstream r); reflexivity.
Qed.

(** Each handler is the skeleton at its own arguments. *)
Lemma call_tool_shape float_repr config upstream ctx call :
  call_tool float_repr config upstream ctx call
  = gateway config upstream ctx (announcement float_repr call) (reraised_as call)
            (built_params call) (endpoint call) (finisher ctx call).
Proof. destruct call; reflexivity. Qed.

(** ** Facts about the dict operations *)

Lemma append_each_onto items : forall (params : gmap string pyval) key held,
  params !! key = Some (PList held) ->
  append_each params key items = Ok (<[key := PList (held ++ items)]> params).
Proof.
  induction items as [|item rest IH]; intros params key held Hheld; simpl.
  - rewrite app_nil_r. by rewrite insert_id.
  - unfold setdefault_append. rewrite Hheld. simpl.
    rewrite (IH _ key (held ++ [item])) by apply lookup_insert_eq.
    by rewrite insert_insert_eq, <- app_assoc.
Qed.

Lemma append_each_fresh (params : gmap string pyval) key item rest :
  params !! key = None ->
  append_each params key (item :: rest) = Ok (<[key := PList (item :: rest)]> params).
Proof.
  intros Hfresh. simpl. unfold setdefault_append. rewrite Hfresh. simpl.
  rewrite (append_each_onto rest _ key [item]) by apply lookup_insert_eq.
  by rewrite insert_insert_eq.
Qed.

Lemma add_list_param_fresh (params : gmap string pyval) key arg :
  params !! key = None ->
  add_list_param params key arg = Ok (with_list params key arg).
Proof.
  intros Hfresh. destruct arg as [[|item rest]|]; try reflexivity.
  unfold add_list_param. simpl truthy. cbv iota.
  by apply append_each_fresh.
Qed.

Lemma with_list_other (params : gmap string pyval) key arg other :
  key <> other -> with_list params key arg !! other = params !! other.
Proof.
  intros Hne. destruct arg as [[|item rest]|]; simpl; try reflexivity.
  by rewrite lookup_insert_ne.
Qed.

Lemma dict_update_lookup keep param_fields : forall (params : gmap string pyval) key,
  dict_update params (dict_comprehension keep param_fields) !! key
  = after_update keep param_fields key (params !! key).
Proof.
  induction param_fields as [|[k v] rest IH]; intros params key; [reflexivity|].
  unfold dict_comprehension in *. simpl.
  destruct (keep v) eqn:Hkeep; simpl.
  - unfold dict_update in *. simpl. rewrite IH. f_equal.
    destruct (String.eqb_spec k key) as [->|Hne].
    + apply lookup_insert_eq.
    + by apply lookup_insert_ne.
  - rewrite IH. by destruct (String.eqb k key).
Qed.

Lemma after_update_absent keep param_fields key : forall before,
  ~ In key (map fst param_fields) ->
  after_update keep param_fields key before = before.
Proof.
  induction param_fields as [|[k v] rest IH]; intros before Hnotin; [reflexivity|].
  simpl in *. destruct (String.eqb_spec k key) as [->|Hne]; [tauto|].
  apply IH. tauto.
Qed.

Lemma after_update_in keep param_fields key v : forall before,
  NoDup (map fst param_fields) -> In (key, v) param_fields ->
  after_update keep param_fields key before = if keep v then Some v else before.
Proof.
  induction param_fields as [|[k v0] rest IH]; intros before Hnodup Hin; [destruct Hin|].
  simpl in *. apply NoDup_cons in Hnodup as [Hhead Hrest].
  destruct Hin as [[= -> ->]|Hin].
  - rewrite String.eqb_refl. apply after_update_absent.
    by rewrite <- list_elem_of_In.
  - destruct (String.eqb_spec k key) as [->|Hne].
    + exfalso. apply Hhead. rewrite list_elem_of_In.
      apply (in_map fst) in Hin. exact Hin.
    + by apply IH.
Qed.

(** ** The parameter dict of each list operation *)

Ltac fresh_key :=
  repeat (rewrite with_list_other by discriminate); reflexivity.

Lemma built_params_list call :
  is_list_operation call = true ->
  built_params call
  = Ok (dict_update (stored_lists call)
                    (dict_comprehension (kept call) (scalar_filters call))).
Proof.
  destruct call; try discriminate; intros _; simpl;
    unfold bills.search_bills_params, people.search_people_params,
           committees.search_committees_params, events.search_events_params,
           jurisdictions.get_jurisdictions_params, stored_lists, paged; simpl;
    repeat (rewrite add_list_param_fresh by fresh_key; simpl);
    reflexivity.
Qed.

(** Building the parameters never raises. *)
Lemma built_params_total call : exists params, built_params call = Ok params.
Proof.
  destruct (is_list_operation call) eqn:Hlist.
  - eexists. by apply built_params_list.
  - destruct call; try discriminate; eexists; reflexivity.
Qed.

Lemma scalar_keys_distinct call : NoDup (map fst (scalar_filters call)).
Proof.
  destruct call; simpl; repeat (apply NoDup_cons; split);
    try apply NoDup_nil_2; rewrite ?list_elem_of_In; simpl;
    intros H; repeat (destruct H as [H|H]; [discriminate H|]); exact H.
Qed.

(** ** Facts about [settle] and the finishers *)

Lemma finisher_quiet ctx call resp w :
  requests (snd (finisher ctx call resp w)) = requests w.
Proof.
  unfold finisher, finish_search, finish_get, bind, response_json, lift.
  destruct (found_suffix call) as [suffix|].
  - destruct (body resp) as [data|e]; [|reflexivity].
    destruct (results_count data) as [found|e]; [|reflexivity].
    by rewrite log_info_run.
  - rewrite log_info_run. by destruct (body resp).
Qed.

Lemma settle_quiet ctx finish outcome w :
  (forall resp w0, requests (snd (finish resp w0)) = requests w0) ->
  requests (snd (settle ctx finish outcome w)) = requests w.
Proof.
  intros Hquiet. unfold settle, try_except, bind, raise_for_status, is_Exception.
  destruct outcome as [e|resp].
  - by rewrite handle_api_error_run.
  - destruct (is_success resp); simpl.
    + specialize (Hquiet resp w). destruct (finish resp w) as [[data|e] w1]; [exact Hquiet|].
      rewrite handle_api_error_run. exact Hquiet.
    + by rewrite handle_api_error_run.
Qed.

(** ** The two ways a call can go *)

Lemma call_tool_missing_key float_repr config upstream ctx call w :
  api_key_missing config = true ->
  call_tool float_repr config upstream ctx call w
  = (Raise (reraised_as call (ValueError API_KEY_MISSING)),
     logged w [entry ctx INFO (announcement float_repr call);
               entry ctx ERROR API_KEY_MISSING]).
Proof.
  intros Hmiss. rewrite call_tool_shape. by apply gateway_missing_key.
Qed.

Lemma call_tool_with_key float_repr config upstream ctx call key params w :
  openstates_api_key config = Some key -> api_key_missing config = false ->
  built_params call = Ok params ->
  call_tool float_repr config upstream ctx call w
  = settle ctx (finisher ctx call) (upstream (request_for call key params))
           (sent (logged w [entry ctx INFO (announcement float_repr call)])
                 (request_for call key params)).
Proof.
  intros Hk Hpresent Hbuilt. rewrite call_tool_shape, Hbuilt.
  by apply gateway_with_key.
Qed.

(** With a key, the one request sent carries the built parameters. *)
Lemma call_tool_issues_one float_repr config upstream ctx call key params w :
  openstates_api_key config = Some key -> api_key_missing config = false ->
  built_params call = Ok params ->
  issues (call_tool float_repr config upstream ctx call) w
         [request_for call key params].
Proof.
  intros Hk Hpresent Hbuilt. unfold issues.
  rewrite (call_tool_with_key _ _ _ _ _ _ _ _ Hk Hpresent Hbuilt).
  rewrite settle_quiet by apply finisher_quiet. reflexivity.
Qed.

(** ** Looking keys up in the dict of a list operation *)

Lemma stored_per_page call per_page :
  per_page_of call = Some per_page ->
  stored_lists call !! "per_page" = Some (PInt (Z.min per_page 100)).
Proof.
  destruct call; try discriminate; intros [= <-]; unfold stored_lists; simpl;
    repeat (rewrite with_list_other by discriminate); reflexivity.
Qed.

Lemma stored_page call page :
  page_of call = Some page -> stored_lists call !! "page" = Some (PInt page).
Proof.
  destruct call; try discriminate; intros [= <-]; unfold stored_lists; simpl;
    repeat (rewrite with_list_other by discriminate); reflexivity.
Qed.

Lemma paged_other page per_page key :
  key <> "page" -> key <> "per_page" -> paged page per_page !! key = None.
Proof.
  intros Hpage Hper. unfold paged.
  rewrite lookup_insert_ne by congruence.
  rewrite lookup_insert_ne by congruence.
  apply lookup_empty.
Qed.

Lemma with_list_here (params : gmap string pyval) key arg :
  params !! key = None ->
  with_list params key arg !! key
  = match arg with
    | Some (item :: rest) => Some (PList (item :: rest))
    | _ => None
    end.
Proof.
  intros Hfresh. destruct arg as [[|item rest]|]; simpl; try exact Hfresh.
  apply lookup_insert_eq.
Qed.

Ltac split_membership H :=
  simpl in H;
  repeat (destruct H as [H|H]; [injection H as <- <-|]);
  try (destruct H; fail).

Lemma stored_list_lookup call key arg :
  In (key, arg) (list_filters call) ->
  stored_lists call !! key
  = match arg with
    | Some (item :: rest) => Some (PList (item :: rest))
    | _ => None
    end.
Proof.
  intros Hin. destruct call; split_membership Hin; unfold stored_lists; simpl;
    repeat (rewrite with_list_other by discriminate);
    apply with_list_here;
    repeat (rewrite with_list_other by discriminate);
    by apply paged_other.
Qed.

Lemma stored_scalar_lookup call key v :
  In (key, v) (scalar_filters call) -> stored_lists call !! key = None.
Proof.
  intros Hin. destruct call; split_membership Hin; unfold stored_lists; simpl;
    repeat (rewrite with_list_other by discriminate);
    by apply paged_other.
Qed.

Lemma list_key_not_scalar call key arg :
  In (key, arg) (list_filters call) -> ~ In key (map fst (scalar_filters call)).
Proof.
  intros Hin. destruct call; split_membership Hin; simpl;
    intros H; repeat (destruct H as [H|H]; [discriminate H|]); exact H.
Qed.

Lemma paging_key_not_scalar call key :
  key = "page" \/ key = "per_page" -> ~ In key (map fst (scalar_filters call)).
Proof.
  intros [-> | ->]; destruct call; simpl;
    intros H; repeat (destruct H as [H|H]; [discriminate H|]); exact H.
Qed.

(** A scalar filter ends up in the dict exactly when the comprehension
    keeps its value. *)
Lemma sent_scalar call key v :
  In (key, v) (scalar_filters call) ->
  dict_update (stored_lists call)
              (dict_comprehension (kept call) (scalar_filters call)) !! key
  = if kept call v then Some v else None.
Proof.
  intros Hin. rewrite dict_update_lookup.
  rewrite (after_update_in _ _ _ v) by (apply scalar_keys_distinct || exact Hin).
  by rewrite (stored_scalar_lookup _ _ _ Hin).
Qed.

(** Any other key is left as the first half of the handler stored it. *)
Lemma sent_other call key :
  ~ In key (map fst (scalar_filters call)) ->
  dict_update (stored_lists call)
              (dict_comprehension (kept call) (scalar_filters call)) !! key
  = stored_lists call !! key.
Proof.
  intros Hnot. rewrite dict_update_lookup. by apply after_update_absent.
Qed.

(** With a key, a list operation sends one request, with this dict. *)
Lemma list_operation_request float_repr config upstream ctx call w :
  api_key_missing config = false -> is_list_operation call = true ->
  exists r,
    issues (call_tool float_repr config upstream ctx call) w [r]
    /\ req_params r
       = dict_update (stored_lists call)
                     (dict_comprehension (kept call) (scalar_filters call)).
Proof.
  intros Hpresent Hlist.
  destruct (api_key_missing_false _ Hpresent) as (key & Hk & _).
  eexists (request_for call key _). split; [|reflexivity].
  apply call_tool_issues_one; try assumption. by apply built_params_list.
Qed.

Lemma per_page_is_list_operation call per_page :
  per_page_of call = Some per_page -> is_list_operation call = true.
Proof. destruct call; try discriminate; reflexivity. Qed.

(** What a call sends, whatever the configuration: nothing or one GET of
    the handler's URL with the literal timeout. *)
Lemma at_most_one_get_shape float_repr config upstream ctx call w :
  exists batch,
    issues (call_tool float_repr config upstream ctx call) w batch
    /\ Forall (fun r => req_method r = "GET" /\ req_url r = endpoint call
                        /\ req_timeout r = 30.0%float) batch.
Proof.
  destruct (api_key_missing config) eqn:Hkey.
  - exists []. unfold issues.
    rewrite (call_tool_missing_key _ _ _ _ _ _ Hkey). simpl.
    rewrite app_nil_r. auto.
  - destruct (api_key_missing_false _ Hkey) as (key & Hk & _).
    destruct (built_params_total call) as (params & Hbuilt).
    exists [request_for call key params].
    split; [by apply call_tool_issues_one|]. repeat constructor.
Qed.

(** ** Empty strings under the [if value] comprehension *)

Lemma comprehension_drop_empty key o rest rest' :
  dict_comprehension truthy rest' = dict_comprehension truthy rest ->
  dict_comprehension truthy ((key, of_opt_str (drop_empty o)) :: rest')
  = dict_comprehension truthy ((key, of_opt_str o) :: rest).
Proof.
  unfold dict_comprehension. intros Htail. destruct o as [s|]; simpl.
  - destruct (String.eqb_spec s "") as [->|Hne]; simpl; [exact Htail|].
    destruct (String.eqb_spec s ""); [done|]. simpl. by rewrite Htail.
  - exact Htail.
Qed.

Lemma comprehension_same_head field rest rest' :
  dict_comprehension truthy rest' = dict_comprehension truthy rest ->
  dict_comprehension truthy (field :: rest')
  = dict_comprehension truthy (field :: rest).
Proof.
  unfold dict_comprehension. intros Htail. simpl. by rewrite Htail.
Qed.

Lemma without_empty_filters_same_params call :
  keeps_only_truthy call = true ->
  built_params (without_empty_filters call) = built_params call.
Proof.
  intros Hkeeps.
  destruct call; try discriminate;
    rewrite (built_params_list (without_empty_filters _)) by reflexivity;
    rewrite built_params_list by reflexivity;
    f_equal; (apply (f_equal2 dict_update); [reflexivity|]);
    unfold scalar_filters, without_empty_filters, kept, bills.param_fields,
           people.param_fields, committees.param_fields,
           jurisdictions.param_fields;
    repeat first [ apply comprehension_drop_empty
                 | apply comprehension_same_head ];
    reflexivity.
Qed.

Lemma without_empty_filters_same_endpoint call :
  endpoint (without_empty_filters call) = endpoint call.
Proof. by destruct call. Qed.

(** ** After a 2xx *)

Lemma settle_success ctx finish resp w :
  is_success resp = true ->
  settle ctx finish (Responded resp) w
  = match finish resp w with
    | (Ok data, w') => (Ok data, w')
    | (Raise e, w') => (Raise e, logged w' [entry ctx ERROR (failure_line e)])
    end.
Proof.
  intros Hok. unfold settle, try_except, bind, raise_for_status, is_Exception.
  rewrite Hok. simpl. destruct (finish resp w) as [[data|e] w']; [reflexivity|].
  by rewrite handle_api_error_run.
Qed.

Lemma finish_search_counts ctx suffix resp data found w :
  body resp = Ok data -> results_count data = Ok found ->
  finish_search ctx suffix resp w
  = (Ok data, logged w [entry ctx INFO ("Found " +:+ pretty found +:+ suffix)]).
Proof.
  intros Hbody Hcount. unfold finish_search, bind, response_json, lift.
  by rewrite Hbody, Hcount, log_info_run.
Qed.

Lemma finish_get_returns ctx message resp data w :
  body resp = Ok data ->
  finish_get ctx message resp w = (Ok data, logged w [entry ctx INFO message]).
Proof.
  intros Hbody. unfold finish_get, bind, response_json, lift.
  by rewrite log_info_run, Hbody.
Qed.

(** ** Arithmetic of the status report *)




(** ** Errors raised after the key check

    Whatever goes wrong once the key is known is caught by the handler's
    [except Exception], logged in one ERROR line and raised again as it
    was caught; a value is returned only when nothing went wrong, and it is
    then the decoded body (never the [None] a handler would fall back to
    if [_handle_api_error] returned). *)
Lemma after_the_key_check float_repr config upstream ctx call key params w :
  openstates_api_key config = Some key -> api_key_missing config = false ->
  built_params call = Ok params ->
  match outcome_error call (upstream (request_for call key params)) with
  | Some e =>
      fst (call_tool float_repr config upstream ctx call w) = Raise e
      /\ exists context,
           logs (snd (call_tool float_repr config upstream ctx call w))
           = logs w ++ context ++ [entry ctx ERROR (failure_line e)]
           /\ Forall (fun line => entry_level line = INFO) context
  | None =>
      exists resp data,
        upstream (request_for call key params) = Responded resp
        /\ body resp = Ok data
        /\ fst (call_tool float_repr config upstream ctx call w) = Ok data
  end.
Proof.
  intros Hk Hpresent Hbuilt.
  rewrite (call_tool_with_key _ _ _ _ _ _ _ _ Hk Hpresent Hbuilt).
  destruct (upstream (request_for call key params)) as [e|resp]; simpl.
  - unfold settle, try_except, bind, is_Exception. rewrite handle_api_error_run.
    simpl. split; [reflexivity|]. eexists [_]. rewrite <- app_assoc.
    split; [reflexivity|]. by repeat constructor.
  - destruct (is_success resp) eqn:Hok.
    + rewrite (settle_success _ _ _ _ Hok).
      unfold finisher, is_list_operation, finish_search, finish_get, bind,
             response_json, lift.
      destruct (found_suffix call) as [suffix|].
      * destruct (body resp) as [data|e] eqn:Hbody; simpl.
        -- destruct (results_count data) as [found|e]; simpl.
           ++ rewrite log_info_run. by exists resp, data.
           ++ split; [reflexivity|]. eexists [_]. rewrite <- app_assoc.
              split; [reflexivity|]. by repeat constructor.
        -- split; [reflexivity|]. eexists [_]. rewrite <- app_assoc.
           split; [reflexivity|]. by repeat constructor.
      * rewrite log_info_run. destruct (body resp) as [data|e] eqn:Hbody; simpl.
        -- by exists resp, data.
        -- split; [reflexivity|]. eexists [_; _]. rewrite <- !app_assoc.
           split; [reflexivity|]. by repeat constructor.
    + unfold settle, try_except, bind, raise_for_status, is_Exception.
      rewrite Hok. simpl. rewrite handle_api_error_run. simpl.
      split; [reflexivity|]. eexists [_]. rewrite <- app_assoc.
      split; [reflexivity|]. by repeat constructor.
Qed.

(** Apart from [search_committees], a handler that finds no key raises
    the very exception [_validate_api_key] raised. *)
Lemma configuration_error_reraised_as_caught
    float_repr config upstream ctx call w :
  api_key_missing config = true ->
  (forall kw, call <> committees_search_committees kw) ->
  exists e,
    fst (_validate_api_key config w) = Raise e
    /\ fst (call_tool float_repr config upstream ctx call w) = Raise e.
Proof.
  intros Hmiss Hother. exists (ValueError API_KEY_MISSING).
  rewrite (call_tool_missing_key _ _ _ _ _ _ Hmiss),
          (validate_api_key_missing _ _ Hmiss). simpl.
  split; [reflexivity|].
  destruct call; try reflexivity. by destruct (Hother kw).
Qed.

(** ** What [status] returns, and when it raises *)

Lemma is_docker_returned h flag :
  is_docker h = Ok flag ->
  (flag = true
   <-> dockerenv_exists h = true
       \/ exists lines line,
            proc_1_cgroup h = Some lines /\ In line lines
            /\ contains "docker" line = true).
Proof.
  unfold is_docker, any_line_contains, host_call, result_bind.
  destruct (dockerenv_stat_error h); [discriminate|].
  destruct (dockerenv_exists h); [intros [= <-]; tauto|].
  destruct (cgroup_stat_error h); [discriminate|].
  destruct (proc_1_cgroup h) as [lines|].
  - destruct (existsb (contains "docker") lines) eqn:Hany.
    + intros [= <-]. split; [|reflexivity]. intros _. right.
      apply existsb_exists in Hany as (line & Hin & Hfound). by exists lines, line.
    + destruct (cgroup_read_error h); [discriminate|]. intros [= <-].
      split; [discriminate|]. intros [Hfile | (lines' & line & [= <-] & Hin & Hfound)];
        [discriminate Hfile|].
      rewrite <- Hany. apply existsb_exists. by exists line.
  - intros [= <-]. split; [discriminate|].
    intros [Hfile | (lines & line & Hsome & _)]; discriminate.
Qed.




Lemma status_returned config h w report :
  fst (status config h w) = Ok report ->
  is_docker h = Ok (docker (environment_section report))
  /\ status_field report = "healthy"
  /\ runtime (environment_section report)
     = (if docker (environment_section report) then "docker" else "native")
  /\ process_uptime (system_section report) = format_uptime (uptime_parts h)
  /\ memory_mb (system_section report) = memory_mb_tenths h
  /\ api_base (server_section report) = "https://v3.openstates.org"
  /\ api_configured (server_section report) = negb (api_key_missing config).
Proof.
  unfold status, bind, lift, host_call, write_log, api_key_missing.
  destruct (create_time_error h); [discriminate|].
  destruct (is_docker h) as [flag|]; [|discriminate].
  destruct (memory_info_error h); [discriminate|].
  destruct (cpu_percent_error h); [discriminate|].
  simpl. intros [= <-]. simpl. rewrite negb_involutive. repeat split.
Qed.



(** * The properties *)

(** C1. Whatever the tool (search or get-by-id, any of the five groups),
    when no API key is configured the call raises a [ValueError] whose text
    is the descriptive "OPENSTATES_API_KEY not found in environment
    variables" and no request is issued.  The call adds two lines to the
    log: the handler's opening INFO line, then one ERROR line carrying
    that text.  The ERROR line goes to the sink [_log_error] writes to
    (the Context if one was passed, else the process-wide logger), which
    is where [_handle_api_error] writes its ERROR line for a network
    failure. *)
Theorem missing_api_key_is_a_configuration_error
    float_repr config upstream ctx call w :
  api_key_missing config = true ->
  exists e,
    fst (call_tool float_repr config upstream ctx call w) = Raise e
    /\ is_ValueError e = true
    /\ str e = "OPENSTATES_API_KEY not found in environment variables"
    /\ issues (call_tool float_repr config upstream ctx call) w []
    /\ logs (snd (call_tool float_repr config upstream ctx call w))
       = logs w
         ++ [ {| entry_sink := sink_of ctx; entry_level := INFO;
                 entry_message := announcement float_repr call |};
              {| entry_sink := sink_of ctx; entry_level := ERROR;
                 entry_message :=
                   "OPENSTATES_API_KEY not found in environment variables" |} ]
    /\ (forall message w0,
          logs (snd (_log_error ctx message w0))
          = logs w0 ++ [ {| entry_sink := sink_of ctx; entry_level := ERROR;
                            entry_message := message |} ])
    /\ (forall failure w0,
          fst (_handle_api_error ctx failure w0) = Raise failure
          /\ logs (snd (_handle_api_error ctx failure w0))
             = logs w0 ++ [ {| entry_sink := sink_of ctx; entry_level := ERROR;
                               entry_message := failure_line failure |} ]).
Proof.
  intros Hmiss. exists (reraised_as call (ValueError API_KEY_MISSING)).
  unfold issues. rewrite (call_tool_missing_key _ _ _ _ _ _ Hmiss). simpl.
  split; [reflexivity|].
  split; [by destruct call|].
  split; [by destruct call|].
  split; [by rewrite app_nil_r|].
  split; [reflexivity|].
  split.
  - intros message w0. by rewrite log_error_run.
  - intros failure w0. by rewrite handle_api_error_run.
Qed.

(** A run without a key: the default configuration, an unreachable
    upstream, [search_bills] with no arguments, logging to the
    process-wide logger. *)
Lemma missing_api_key_witness :
  api_key_missing default_config = true
  /\ exists e,
       fst (call_tool no_floats default_config unreachable None
                      (bills_search_bills bills.defaults) fresh) = Raise e
       /\ is_ValueError e = true
       /\ logs (snd (call_tool no_floats default_config unreachable None
                               (bills_search_bills bills.defaults) fresh))
          = [ {| entry_sink := LoggerSink; entry_level := INFO;
                 entry_message :=
                   "Searching bills with jurisdiction: None, query: None" |};
              {| entry_sink := LoggerSink; entry_level := ERROR;
                 entry_message :=
                   "OPENSTATES_API_KEY not found in environment variables" |} ].
Proof.
  split; [reflexivity|].
  destruct (missing_api_key_is_a_configuration_error
              no_floats default_config unreachable None
              (bills_search_bills bills.defaults) fresh eq_refl)
    as (e & Hraise & Hclass & _ & _ & Hlogs & _).
  exists e. repeat split; assumption.
Defined.

(** C3. For each of the five list operations and every integer
    [per_page], the request carries [per_page = min(per_page, 100)]: above
    100 it is exactly 100, at 100 or below it is the input, and clamping a
    clamped value changes nothing. *)
Theorem per_page_is_clamped_to_100
    float_repr config upstream ctx call per_page w :
  api_key_missing config = false ->
  per_page_of call = Some per_page ->
  exists r,
    issues (call_tool float_repr config upstream ctx call) w [r]
    /\ req_params r !! "per_page" = Some (PInt (Z.min per_page 100))
    /\ (100 < per_page -> req_params r !! "per_page" = Some (PInt 100))
    /\ (per_page <= 100 -> req_params r !! "per_page" = Some (PInt per_page))
    /\ Z.min (Z.min per_page 100) 100 = Z.min per_page 100.
Proof.
  intros Hpresent Hper.
  destruct (list_operation_request float_repr config upstream ctx call w Hpresent
              (per_page_is_list_operation _ _ Hper)) as (r & Hsent & Hparams).
  assert (Hlookup : req_params r !! "per_page" = Some (PInt (Z.min per_page 100))).
  { rewrite Hparams, sent_other by (apply paging_key_not_scalar; by right).
    by apply stored_per_page. }
  exists r. repeat split; try assumption.
  - intros Hbig. rewrite Hlookup. do 2 f_equal. lia.
  - intros Hsmall. rewrite Hlookup. do 2 f_equal. lia.
  - lia.
Qed.

(** [search_committees(per_page=250)] with a key configured. *)
Lemma per_page_clamp_witness :
  exists r,
    issues (call_tool no_floats (config_with_key "secret") unreachable None
              (committees_search_committees
                 {| committees.jurisdiction := None; committees.classification := None;
                    committees.parent := None; committees.chamber := None;
                    committees.include := None; committees.page := 1;
                    committees.per_page := 250 |}))
           fresh [r]
    /\ req_params r !! "per_page" = Some (PInt 100).
Proof.
  destruct (per_page_is_clamped_to_100 no_floats (config_with_key "secret")
              unreachable None
              (committees_search_committees
                 {| committees.jurisdiction := None; committees.classification := None;
                    committees.parent := None; committees.chamber := None;
                    committees.include := None; committees.page := 1;
                    committees.per_page := 250 |})
              250 fresh eq_refl eq_refl)
    as (r & Hsent & _ & Hbig & _).
  exists r. split; [exact Hsent|]. apply Hbig. reflexivity.
Defined.

(** C5. For each list operation and each of its list-valued filters
    ([identifier], [subject], [id], [include]) given a non-empty list, the
    request's parameters bind that key to a list equal to the caller's:
    the same elements, in the same order, as many times. *)
Theorem list_filters_are_sent_whole
    float_repr config upstream ctx call key items w :
  api_key_missing config = false ->
  In (key, Some items) (list_filters call) ->
  items <> [] ->
  exists r,
    issues (call_tool float_repr config upstream ctx call) w [r]
    /\ req_params r !! key = Some (PList items).
Proof.
  intros Hpresent Hin Hnonempty.
  assert (Hlist : is_list_operation call = true)
    by (destruct call; try reflexivity; destruct Hin).
  destruct (list_operation_request float_repr config upstream ctx call w Hpresent Hlist)
    as (r & Hsent & Hparams).
  exists r. split; [exact Hsent|].
  rewrite Hparams, sent_other by (eapply list_key_not_scalar; exact Hin).
  rewrite (stored_list_lookup _ _ _ Hin).
  destruct items; [done|reflexivity].
Qed.

(** [search_people(id=["a", "b", "a"])]: the three ids go out as given. *)
Lemma list_filters_witness :
  exists r,
    issues (call_tool no_floats (config_with_key "secret") unreachable None
              (people_search_people
                 {| people.jurisdiction := None; people.name := None;
                    people.id := Some ["a"; "b"; "a"];
                    people.org_classification := None; people.district := None;
                    people.include := None; people.page := 1;
                    people.per_page := 10 |}))
           fresh [r]
    /\ req_params r !! "id" = Some (PList ["a"; "b"; "a"]).
Proof.
  apply (list_filters_are_sent_whole no_floats (config_with_key "secret")
           unreachable None
           (people_search_people
              {| people.jurisdiction := None; people.name := None;
                 people.id := Some ["a"; "b"; "a"];
                 people.org_classification := None; people.district := None;
                 people.include := None; people.page := 1;
                 people.per_page := 10 |})
           "id" ["a"; "b"; "a"] fresh).
  - reflexivity.
  - simpl. left. reflexivity.
  - discriminate.
Defined.

(** C8. One invocation of any handler adds at most one request to those
    that left the process: none without a key, exactly one with a key
    (building the parameters cannot fail), whatever the upstream then does,
    failures included.  That request is a GET of the handler's URL with the
    literal timeout 30.0. *)
Theorem at_most_one_get_per_invocation
    float_repr config upstream ctx call w :
  exists batch,
    issues (call_tool float_repr config upstream ctx call) w batch
    /\ (length batch <= 1)%nat
    /\ (api_key_missing config = false -> length batch = 1%nat)
    /\ (api_key_missing config = true -> batch = [])
    /\ Forall (fun r => req_method r = "GET" /\ req_url r = endpoint call
                        /\ req_timeout r = 30.0%float) batch.
Proof.
  destruct (api_key_missing config) eqn:Hkey.
  - exists []. unfold issues.
    rewrite (call_tool_missing_key _ _ _ _ _ _ Hkey). simpl.
    rewrite app_nil_r. repeat split; auto. discriminate.
  - destruct (api_key_missing_false _ Hkey) as (key & Hk & _).
    destruct (built_params_total call) as (params & Hbuilt).
    exists [request_for call key params].
    split; [by apply call_tool_issues_one|].
    repeat split; auto. discriminate.
Qed.

(** C10. No handler reads [openstates_base_url], [openstates_timeout],
    [openstates_connect_timeout] or [openstates_read_timeout]: two
    configurations that agree on everything else drive every tool, and
    [status], to the same result, the same log and the same requests, and
    every request goes to a URL under https://v3.openstates.org with the
    literal timeout 30.0. *)
Theorem base_url_and_timeouts_are_never_read
    float_repr c1 c2 upstream ctx call w :
  same_but_url_and_timeouts c1 c2 ->
  call_tool float_repr c1 upstream ctx call w
  = call_tool float_repr c2 upstream ctx call w
  /\ (forall h, status c1 h w = status c2 h w)
  /\ exists batch,
       issues (call_tool float_repr c1 upstream ctx call) w batch
       /\ Forall (fun r => String.prefix "https://v3.openstates.org" (req_url r) = true
                           /\ req_timeout r = 30.0%float) batch.
Proof.
  intros (Hhost & Hport & _ & _ & _ & Hkey & _).
  assert (Hmissing : api_key_missing c1 = api_key_missing c2)
    by (unfold api_key_missing; by rewrite Hkey).
  split; [|split].
  - destruct (api_key_missing c1) eqn:H1.
    + rewrite (call_tool_missing_key _ c1) by exact H1.
      by rewrite (call_tool_missing_key _ c2).
    + destruct (api_key_missing_false _ H1) as (key & Hk1 & _).
      destruct (built_params_total call) as (params & Hbuilt).
      rewrite (call_tool_with_key _ c1 _ _ _ key params) by assumption.
      rewrite (call_tool_with_key _ c2 _ _ _ key params); congruence.
  - intros h. unfold status. by rewrite Hhost, Hport, Hkey.
  - destruct (at_most_one_get_shape float_repr c1 upstream ctx call w)
      as (batch & Hsent & Hall).
    exists batch. split; [exact Hsent|].
    eapply Forall_impl; [exact Hall|]. intros r (_ & Hurl & Htimeout).
    split; [|exact Htimeout]. rewrite Hurl. by destruct call.
Qed.

(** Two configurations that differ in all four fields, and in nothing else. *)
Lemma base_url_and_timeouts_witness :
  call_tool no_floats (config_with_key "secret") unreachable None
            (bills_get_bill_by_id "0123" None) fresh
  = call_tool no_floats
      {| host := "0.0.0.0"; mcp_port := 8795; openstates_log_level := "INFO";
         openstates_debug := false; environment := "production";
         openstates_base_url := "http://localhost:9999";
         openstates_api_key := Some "secret"; openstates_timeout := 1;
         openstates_connect_timeout := 2; openstates_read_timeout := 3;
         openstates_rate_limit := 50; openstates_cache_ttl := 300;
         openstates_max_retries := 3; openstates_retry_delay := 1.0%float |}
      unreachable None (bills_get_bill_by_id "0123" None) fresh.
Proof.
  apply (base_url_and_timeouts_are_never_read no_floats (config_with_key "secret")
           {| host := "0.0.0.0"; mcp_port := 8795; openstates_log_level := "INFO";
              openstates_debug := false; environment := "production";
              openstates_base_url := "http://localhost:9999";
              openstates_api_key := Some "secret"; openstates_timeout := 1;
              openstates_connect_timeout := 2; openstates_read_timeout := 3;
              openstates_rate_limit := 50; openstates_cache_ttl := 300;
              openstates_max_retries := 3; openstates_retry_delay := 1.0%float |}
           unreachable None (bills_get_bill_by_id "0123" None) fresh).
  unfold same_but_url_and_timeouts. simpl. repeat split; reflexivity.
Defined.

(** C2, as the code has it.  For each list operation, a filter whose
    default is [None] and that is left out does not appear among the
    request's parameters, be it a scalar or a list-valued filter, and
    [page] and [per_page] are always there.  The three filters whose
    default is not [None] do appear when left out: [sort] in
    [search_bills] (any non-empty value, the default "updated_desc"
    included), [deleted] and [require_bills] in [search_events] (any
    value, the default [False] included). *)
Theorem omitted_filters_with_default_None_are_absent
    float_repr config upstream ctx call w :
  api_key_missing config = false ->
  is_list_operation call = true ->
  exists r,
    issues (call_tool float_repr config upstream ctx call) w [r]
    /\ (forall key, In (key, PNone) (scalar_filters call) ->
                    req_params r !! key = None)
    /\ (forall key, In (key, None) (list_filters call) ->
                    req_params r !! key = None)
    /\ is_Some (req_params r !! "page")
    /\ is_Some (req_params r !! "per_page")
    /\ (forall kw, call = bills_search_bills kw -> bills.sort kw <> "" ->
                   req_params r !! "sort" = Some (PStr (bills.sort kw)))
    /\ (forall kw, call = events_search_events kw ->
                   req_params r !! "deleted" = Some (PBool (events.deleted kw))
                   /\ req_params r !! "require_bills"
                      = Some (PBool (events.require_bills kw))).
Proof.
  intros Hpresent Hlist.
  destruct (list_operation_request float_repr config upstream ctx call w Hpresent Hlist)
    as (r & Hsent & Hparams).
  exists r. split; [exact Hsent|]. rewrite Hparams. repeat split.
  - intros key Hin. rewrite (sent_scalar _ _ _ Hin). by destruct call.
  - intros key Hin.
    rewrite sent_other by (eapply list_key_not_scalar; exact Hin).
    by rewrite (stored_list_lookup _ _ _ Hin).
  - rewrite sent_other by (apply paging_key_not_scalar; by left).
    destruct call; try discriminate; by erewrite stored_page.
  - rewrite sent_other by (apply paging_key_not_scalar; by right).
    destruct call; try discriminate; by erewrite stored_per_page.
  - intros kw -> Hsort.
    rewrite (sent_scalar _ "sort" (PStr (bills.sort kw))) by (simpl; tauto).
    simpl. by destruct (String.eqb_spec (bills.sort kw) "").
  - rewrite (sent_scalar _ "deleted" (PBool (events.deleted kw)));
      subst call; simpl; tauto.
  - rewrite (sent_scalar _ "require_bills" (PBool (events.require_bills kw)));
      subst call; simpl; tauto.
Qed.

(** [search_events()] with every argument left out. *)
Lemma omitted_filters_witness :
  exists r,
    issues (call_tool no_floats (config_with_key "secret") unreachable None
              (events_search_events events.defaults)) fresh [r]
    /\ req_params r !! "jurisdiction" = None.
Proof.
  destruct (omitted_filters_with_default_None_are_absent
              no_floats (config_with_key "secret") unreachable None
              (events_search_events events.defaults) fresh eq_refl eq_refl)
    as (r & Hsent & Hscalar & _).
  exists r. split; [exact Hsent|]. apply Hscalar. simpl. tauto.
Defined.

(** C2 as stated fails: with every argument left at its default,
    [search_events] still sends [deleted] and [require_bills], and
    [search_bills] still sends [sort]. *)
Lemma omitted_filters_still_sent :
  (exists r,
     requests (snd (call_tool no_floats (config_with_key "secret") unreachable None
                      (events_search_events events.defaults) fresh)) = [r]
     /\ req_params r !! "deleted" = Some (PBool false)
     /\ req_params r !! "require_bills" = Some (PBool false))
  /\ (exists r,
        requests (snd (call_tool no_floats (config_with_key "secret") unreachable None
                         (bills_search_bills bills.defaults) fresh)) = [r]
        /\ req_params r !! "sort" = Some (PStr "updated_desc")).
Proof.
  split; eexists; (split; [reflexivity|]); repeat split; reflexivity.
Qed.

(** C9, as the code has it.  In [search_bills], [search_people],
    [search_committees] and [get_jurisdictions] a scalar filter given a
    falsy value (the empty string) is left out of the request's
    parameters, and the request is the very one that the same call sends
    with every empty [str | None] filter omitted.  ([sort] has a default
    of its own, so an empty [sort] is dropped rather than defaulted;
    [search_events] is not covered: it keeps every value that is not
    [None].) *)
Theorem empty_scalar_filters_are_dropped
    float_repr config upstream ctx call w :
  api_key_missing config = false ->
  keeps_only_truthy call = true ->
  exists r,
    issues (call_tool float_repr config upstream ctx call) w [r]
    /\ (forall key v, In (key, v) (scalar_filters call) -> truthy v = false ->
                      req_params r !! key = None)
    /\ issues (call_tool float_repr config upstream ctx (without_empty_filters call))
              w [r].
Proof.
  intros Hpresent Hkeeps.
  assert (Hlist : is_list_operation call = true) by (by destruct call).
  destruct (api_key_missing_false _ Hpresent) as (key & Hk & _).
  pose proof (built_params_list call Hlist) as Hbuilt.
  eexists (request_for call key _). split; [|split].
  - by apply call_tool_issues_one.
  - intros k v Hin Hfalsy. simpl. rewrite (sent_scalar _ _ _ Hin).
    destruct call; try discriminate; simpl; by rewrite Hfalsy.
  - pose proof (call_tool_issues_one float_repr config upstream ctx
                  (without_empty_filters call) key _ w Hk Hpresent
                  (eq_trans (without_empty_filters_same_params _ Hkeeps) Hbuilt))
      as Hsame.
    unfold request_for in *. by rewrite without_empty_filters_same_endpoint in Hsame.
Qed.

(** [search_bills(q="", jurisdiction="ca")] sends what
    [search_bills(jurisdiction="ca")] sends. *)
Lemma empty_scalar_filters_witness :
  exists r,
    issues (call_tool no_floats (config_with_key "secret") unreachable None
              (bills_search_bills
                 {| bills.jurisdiction := Some "ca"; bills.session := None;
                    bills.chamber := None; bills.identifier := None;
                    bills.classification := None; bills.subject := None;
                    bills.updated_since := None; bills.created_since := None;
                    bills.action_since := None; bills.sort := "updated_desc";
                    bills.sponsor := None; bills.sponsor_classification := None;
                    bills.q := Some ""; bills.include := None;
                    bills.page := 1; bills.per_page := 10 |}))
           fresh [r]
    /\ req_params r !! "q" = None.
Proof.
  destruct (empty_scalar_filters_are_dropped
              no_floats (config_with_key "secret") unreachable None
              (bills_search_bills
                 {| bills.jurisdiction := Some "ca"; bills.session := None;
                    bills.chamber := None; bills.identifier := None;
                    bills.classification := None; bills.subject := None;
                    bills.updated_since := None; bills.created_since := None;
                    bills.action_since := None; bills.sort := "updated_desc";
                    bills.sponsor := None; bills.sponsor_classification := None;
                    bills.q := Some ""; bills.include := None;
                    bills.page := 1; bills.per_page := 10 |})
              fresh eq_refl eq_refl)
    as (r & Hsent & Hdropped & _).
  exists r. split; [exact Hsent|].
  apply (Hdropped "q" (PStr "")); [simpl; tauto | reflexivity].
Defined.

(** C9 as stated fails for [search_events]: an empty [jurisdiction] goes
    out as [jurisdiction=""], which an omitted one does not; and in
    [search_bills] an empty [sort] is told apart from an omitted one. *)
Lemma empty_filter_reaches_upstream :
  (exists r r',
     requests (snd (call_tool no_floats (config_with_key "secret") unreachable None
                      (events_search_events
                         {| events.jurisdiction := Some ""; events.deleted := false;
                            events.before := None; events.after := None;
                            events.require_bills := false; events.include := None;
                            events.page := 1; events.per_page := 20 |})
                      fresh)) = [r]
     /\ requests (snd (call_tool no_floats (config_with_key "secret") unreachable None
                         (events_search_events events.defaults) fresh)) = [r']
     /\ req_params r !! "jurisdiction" = Some (PStr "")
     /\ req_params r' !! "jurisdiction" = None)
  /\ (exists r r',
        requests (snd (call_tool no_floats (config_with_key "secret") unreachable None
                         (bills_search_bills
                            {| bills.jurisdiction := None; bills.session := None;
                               bills.chamber := None; bills.identifier := None;
                               bills.classification := None; bills.subject := None;
                               bills.updated_since := None; bills.created_since := None;
                               bills.action_since := None; bills.sort := "";
                               bills.sponsor := None;
                               bills.sponsor_classification := None;
                               bills.q := None; bills.include := None;
                               bills.page := 1; bills.per_page := 10 |})
                         fresh)) = [r]
        /\ requests (snd (call_tool no_floats (config_with_key "secret") unreachable
                            None (bills_search_bills bills.defaults) fresh)) = [r']
        /\ req_params r !! "sort" = None
        /\ req_params r' !! "sort" = Some (PStr "updated_desc")).
Proof.
  split; do 2 eexists; (split; [reflexivity|]); (split; [reflexivity|]);
    split; reflexivity.
Qed.

(** C6, as the code has it.  When the upstream answers 2xx and the body
    decodes, a get-by-identifier operation returns the decoded body as it
    is; a list operation does so provided the body is an object whose
    [results] member, if any, has a length, and its last log line is
    "Found N ..." with N that length (0 when [results] is missing). *)
Theorem success_returns_the_body_unchanged
    float_repr config upstream ctx call resp data w :
  api_key_missing config = false ->
  (forall r, upstream r = Responded resp) ->
  is_success resp = true ->
  body resp = Ok data ->
  (is_list_operation call = true -> exists found, results_count data = Ok found) ->
  fst (call_tool float_repr config upstream ctx call w) = Ok data
  /\ match found_suffix call with
     | Some suffix =>
         exists found,
           results_count data = Ok found
           /\ logs (snd (call_tool float_repr config upstream ctx call w))
              = logs w ++ [entry ctx INFO (announcement float_repr call);
                           entry ctx INFO ("Found " +:+ pretty found +:+ suffix)]
     | None =>
         logs (snd (call_tool float_repr config upstream ctx call w))
         = logs w ++ [entry ctx INFO (announcement float_repr call);
                      entry ctx INFO (retrieved_line call)]
     end.
Proof.
  intros Hpresent Hanswer Hok Hbody Hshape.
  destruct (api_key_missing_false _ Hpresent) as (key & Hk & _).
  destruct (built_params_total call) as (params & Hbuilt).
  rewrite (call_tool_with_key _ _ _ _ _ _ _ _ Hk Hpresent Hbuilt).
  rewrite Hanswer, (settle_success _ _ _ _ Hok).
  unfold finisher, is_list_operation in *.
  destruct (found_suffix call) as [suffix|].
  - destruct (Hshape eq_refl) as (found & Hcount).
    rewrite (finish_search_counts _ _ _ _ _ _ Hbody Hcount). simpl.
    split; [reflexivity|]. exists found. split; [exact Hcount|].
    by rewrite <- app_assoc.
  - rewrite (finish_get_returns _ _ _ _ _ Hbody). simpl.
    split; [reflexivity|]. by rewrite <- app_assoc.
Qed.

(** [search_bills(jurisdiction="ca", q="budget", per_page=10)] against an
    upstream that returns eight results and a pagination object: the body
    comes back as it is and the log ends with "Found 8 bills". *)
Lemma success_witness :
  fst (call_tool no_floats (config_with_key "secret") (always (ok_with eight_results))
                 None budget_search fresh) = Ok eight_results
  /\ logs (snd (call_tool no_floats (config_with_key "secret")
                           (always (ok_with eight_results)) None budget_search fresh))
     = [entry None INFO "Searching bills with jurisdiction: ca, query: budget";
        entry None INFO "Found 8 bills"].
Proof.
  destruct (success_returns_the_body_unchanged no_floats (config_with_key "secret")
              (always (ok_with eight_results)) None budget_search
              (ok_with eight_results) eight_results fresh
              eq_refl (fun _ => eq_refl) eq_refl eq_refl
              (fun _ => ex_intro _ 8%nat eq_refl))
    as (Hreturned & found & Hcount & Hlogs).
  split; [exact Hreturned|].
  injection Hcount as <-. exact Hlogs.
Defined.

(** A [results] member that is a string is counted in characters, as
    [len] does: the euro sign is one character, three bytes of UTF-8. *)
Lemma a_string_of_results_is_counted_in_characters :
  results_count (JObj [("results", JStr "€")]) = Ok 1%nat
  /\ logs (snd (call_tool no_floats (config_with_key "secret")
                  (always (ok_with (JObj [("results", JStr "€")]))) None
                  (people_search_people people.defaults) fresh))
     = [entry None INFO "Searching people with jurisdiction: None, name: None";
        entry None INFO "Found 1 people"].
Proof. split; reflexivity. Qed.

(** C6 as stated fails for list operations: a 200 whose body is a JSON
    array, or an object whose [results] is [null], makes [search_bills]
    raise instead of returning the body. *)
Lemma success_with_unexpected_body_raises :
  fst (call_tool no_floats (config_with_key "secret") (always (ok_with (JArr [])))
         None (bills_search_bills bills.defaults) fresh)
  = Raise (AttributeError "'list' object has no attribute 'get'")
  /\ fst (call_tool no_floats (config_with_key "secret")
            (always (ok_with (JObj [("results", JNull)])))
            None (bills_search_bills bills.defaults) fresh)
     = Raise (TypeError "object of type 'NoneType' has no len()").
Proof. split; reflexivity. Qed.




(** C4, at the input where the code departs from it.  Without a key,
    [_validate_api_key] raises [ValueError("OPENSTATES_API_KEY not
    found ...")]; [search_committees] logs it once and then raises a new
    [ValueError] wrapping it, not the exception it caught, while
    [get_committee_details] in the same module re-raises the caught one. *)
Theorem search_committees_rewraps_the_configuration_error :
  fst (_validate_api_key default_config fresh) = Raise (ValueError API_KEY_MISSING)
  /\ fst (call_tool no_floats default_config unreachable None
            (committees_search_committees committees.defaults) fresh)
     = Raise (ValueError_of (ValueError API_KEY_MISSING))
  /\ ValueError_of (ValueError API_KEY_MISSING) <> ValueError API_KEY_MISSING
  /\ logs (snd (call_tool no_floats default_config unreachable None
                  (committees_search_committees committees.defaults) fresh))
     = [entry None INFO "Searching committees for jurisdiction: None";
        entry None ERROR API_KEY_MISSING]
  /\ fst (call_tool no_floats default_config unreachable None
            (committees_get_committee_details "ocd-organization/1" None) fresh)
     = Raise (ValueError API_KEY_MISSING).
Proof. repeat split; try reflexivity. discriminate. Qed.

(** * Further properties

    What the handlers, the status report and the parameter building do
    beyond the properties above: how each kind of failure surfaces, what a
    request may and may not carry, and what the status report tells. *)

(** ** A call, from its first line to its last *)

Ltac same_run :=
  simpl; unfold logged, sent, written; simpl; rewrite <- ?app_assoc; reflexivity.

Lemma call_tool_transcript float_repr config upstream ctx call key params w :
  openstates_api_key config = Some key -> api_key_missing config = false ->
  built_params call = Ok params ->
  call_tool float_repr config upstream ctx call w
  = (fst (transcript call (upstream (request_for call key params))),
     {| logs := logs w
                ++ written ctx ((INFO, announcement float_repr call)
                                :: snd (transcript call
                                          (upstream (request_for call key params))));
        requests := requests w ++ [request_for call key params] |}).
Proof.
  intros Hk Hpresent Hbuilt.
  rewrite (call_tool_with_key _ _ _ _ _ _ _ _ Hk Hpresent Hbuilt).
  unfold transcript.
  destruct (upstream (request_for call key params)) as [e|resp].
  - unfold settle, try_except, bind, is_Exception. rewrite handle_api_error_run.
    same_run.
  - destruct (is_success resp) eqn:Hok.
    + rewrite (settle_success _ _ _ _ Hok).
      unfold finisher, finish_search, finish_get, bind, response_json, lift.
      destruct (found_suffix call) as [suffix|].
      * destruct (body resp) as [data|e]; [|same_run].
        destruct (results_count data) as [found|e]; [|same_run].
        rewrite log_info_run. same_run.
      * rewrite log_info_run. destruct (body resp) as [data|e]; same_run.
    + unfold settle, try_except, bind, raise_for_status, is_Exception.
      rewrite Hok. simpl. rewrite handle_api_error_run. same_run.
Qed.

Lemma call_tool_without_key_transcript float_repr config upstream ctx call w :
  api_key_missing config = true ->
  call_tool float_repr config upstream ctx call w
  = (Raise (reraised_as call (ValueError API_KEY_MISSING)),
     {| logs := logs w ++ written ctx [(INFO, announcement float_repr call);
                                       (ERROR, API_KEY_MISSING)];
        requests := requests w |}).
Proof. intros Hmiss. by rewrite (call_tool_missing_key _ _ _ _ _ _ Hmiss). Qed.

(** X1. When the upstream answers with a status outside 200-299, every
    handler raises an [HTTPStatusError] carrying that status, whatever the
    body holds, and writes one ERROR line that begins "HTTP error: " after
    its opening line. *)
Theorem http_status_errors_carry_the_status
    float_repr config upstream ctx call resp w :
  api_key_missing config = false ->
  (forall r, upstream r = Responded resp) ->
  is_success resp = false ->
  fst (call_tool float_repr config upstream ctx call w)
  = Raise (HTTPStatusError (status_code resp) (status_text resp))
  /\ logs (snd (call_tool float_repr config upstream ctx call w))
     = logs w ++ [entry ctx INFO (announcement float_repr call);
                  entry ctx ERROR ("HTTP error: " +:+ status_text resp)].
Proof.
  intros Hpresent Hanswer Hbad.
  destruct (api_key_missing_false _ Hpresent) as (key & Hk & _).
  destruct (built_params_total call) as (params & Hbuilt).
  rewrite (call_tool_transcript _ _ _ _ _ _ _ _ Hk Hpresent Hbuilt).
  rewrite Hanswer. unfold transcript. rewrite Hbad. split; reflexivity.
Qed.

(** A 404 for a bill that does not exist, with a JSON body that is
    never looked at. *)
Lemma http_status_witness :
  fst (call_tool no_floats (config_with_key "secret")
         (always (answer 404 "Client error '404 Not Found'"
                         (Ok (JObj [("detail", JStr "No such Bill.")]))))
         None invalid_bill fresh)
  = Raise (HTTPStatusError 404 "Client error '404 Not Found'").
Proof.
  apply (http_status_errors_carry_the_status no_floats (config_with_key "secret")
           (always (answer 404 "Client error '404 Not Found'"
                           (Ok (JObj [("detail", JStr "No such Bill.")]))))
           None invalid_bill
           (answer 404 "Client error '404 Not Found'"
                   (Ok (JObj [("detail", JStr "No such Bill.")])))
           fresh).
  - reflexivity.
  - intros r. reflexivity.
  - reflexivity.
Defined.

(** X2. When [client.get] itself fails (connection refused, timeout, DNS),
    every handler raises the exception it caught, the same one, and
    writes one ERROR line "API error: ..." with that exception's text
    after its opening line.  The one request stays the only one. *)
Theorem transport_failures_are_raised_as_caught
    float_repr config upstream ctx call e w :
  api_key_missing config = false ->
  (forall r, upstream r = Failed e) ->
  is_HTTPStatusError e = false ->
  fst (call_tool float_repr config upstream ctx call w) = Raise e
  /\ logs (snd (call_tool float_repr config upstream ctx call w))
     = logs w ++ [entry ctx INFO (announcement float_repr call);
                  entry ctx ERROR ("API error: " +:+ str e)]
  /\ exists r, issues (call_tool float_repr config upstream ctx call) w [r].
Proof.
  intros Hpresent Hanswer Hkind.
  destruct (api_key_missing_false _ Hpresent) as (key & Hk & _).
  destruct (built_params_total call) as (params & Hbuilt).
  unfold issues.
  rewrite (call_tool_transcript _ _ _ _ _ _ _ _ Hk Hpresent Hbuilt).
  rewrite Hanswer. unfold transcript, failure_line. rewrite Hkind.
  repeat split. by eexists.
Qed.

(** [search_people(name="Smith")] while the upstream cannot be reached. *)
Lemma transport_failure_witness :
  fst (call_tool no_floats (config_with_key "secret") unreachable None
         (people_search_people
            {| people.jurisdiction := None; people.name := Some "Smith";
               people.id := None; people.org_classification := None;
               people.district := None; people.include := None;
               people.page := 1; people.per_page := 5 |})
         fresh)
  = Raise (RequestError "unreachable").
Proof.
  apply (transport_failures_are_raised_as_caught no_floats (config_with_key "secret")
           unreachable None
           (people_search_people
              {| people.jurisdiction := None; people.name := Some "Smith";
                 people.id := None; people.org_classification := None;
                 people.district := None; people.include := None;
                 people.page := 1; people.per_page := 5 |})
           (RequestError "unreachable") fresh).
  - reflexivity.
  - intros r. reflexivity.
  - reflexivity.
Defined.

(** X3. A handler never makes a value up: whenever a call returns, a key
    was configured, one request was sent, the upstream answered it with a
    2xx, and the value returned is the decoded body of that answer.  The
    [None] a handler would return if [_handle_api_error] came back is
    never returned in place of a result. *)
Theorem a_returned_value_is_an_upstream_body
    float_repr config upstream ctx call data w :
  fst (call_tool float_repr config upstream ctx call w) = Ok data ->
  api_key_missing config = false
  /\ exists r resp,
       issues (call_tool float_repr config upstream ctx call) w [r]
       /\ upstream r = Responded resp
       /\ is_success resp = true
       /\ body resp = Ok data.
Proof.
  intros Hreturned. destruct (api_key_missing config) eqn:Hkey.
  - rewrite (call_tool_without_key_transcript _ _ _ _ _ _ Hkey) in Hreturned.
    discriminate Hreturned.
  - split; [reflexivity|].
    destruct (api_key_missing_false _ Hkey) as (key & Hk & _).
    destruct (built_params_total call) as (params & Hbuilt).
    exists (request_for call key params). unfold issues.
    rewrite (call_tool_transcript _ _ _ _ _ _ _ _ Hk Hkey Hbuilt) in *.
    simpl in Hreturned. unfold transcript in Hreturned.
    destruct (upstream (request_for call key params)) as [e|resp];
      [discriminate Hreturned|].
    exists resp. split; [reflexivity|]. split; [reflexivity|].
    destruct (is_success resp); [|discriminate Hreturned].
    split; [reflexivity|].
    destruct (found_suffix call), (body resp) as [decoded|e];
      try discriminate Hreturned.
    + destruct (results_count decoded); [|discriminate Hreturned].
      simpl in Hreturned. congruence.
    + simpl in Hreturned. congruence.
Qed.

(** The budget search that returns eight results. *)
Lemma returned_value_witness :
  exists r resp,
    issues (call_tool no_floats (config_with_key "secret")
              (always (ok_with eight_results)) None budget_search) fresh [r]
    /\ always (ok_with eight_results) r = Responded resp
    /\ is_success resp = true
    /\ body resp = Ok eight_results.
Proof.
  apply (a_returned_value_is_an_upstream_body no_floats (config_with_key "secret")
           (always (ok_with eight_results)) None budget_search eight_results fresh).
  reflexivity.
Defined.

(** X4. A call raises exactly when it writes an ERROR line, and then it
    writes one, as its last line; every line before it, and every line of
    a call that returns, is an INFO line, the first being the handler's
    opening line.  After the key check the ERROR line is "HTTP error: ..."
    or "API error: ..." with the text of the exception raised; at the key
    check it is the text of the missing-key error. *)
Theorem a_call_raises_exactly_when_it_logs_an_error
    float_repr config upstream ctx call w :
  exists context,
    Forall (fun line => entry_level line = INFO) context
    /\ match fst (call_tool float_repr config upstream ctx call w) with
       | Ok _ =>
           logs (snd (call_tool float_repr config upstream ctx call w))
           = logs w ++ entry ctx INFO (announcement float_repr call) :: context
       | Raise e =>
           logs (snd (call_tool float_repr config upstream ctx call w))
           = logs w ++ entry ctx INFO (announcement float_repr call) :: context
                    ++ [entry ctx ERROR (if api_key_missing config then str e
                                         else failure_line e)]
       end.
Proof.
  destruct (api_key_missing config) eqn:Hkey.
  - rewrite (call_tool_without_key_transcript _ _ _ _ _ _ Hkey). simpl.
    exists []. split; [constructor|]. by destruct call.
  - destruct (api_key_missing_false _ Hkey) as (key & Hk & _).
    destruct (built_params_total call) as (params & Hbuilt).
    rewrite (call_tool_transcript _ _ _ _ _ _ _ _ Hk Hkey Hbuilt). simpl.
    unfold transcript.
    destruct (upstream (request_for call key params)) as [e|resp];
      [exists []; split; [constructor|reflexivity]|].
    destruct (is_success resp);
      [|exists []; split; [constructor|reflexivity]].
    destruct (found_suffix call) as [suffix|], (body resp) as [decoded|e]; simpl.
    + destruct (results_count decoded) as [found|e]; simpl.
      * exists [entry ctx INFO ("Found " +:+ pretty found +:+ suffix)].
        split; [by repeat constructor|reflexivity].
      * exists []. split; [constructor|reflexivity].
    + exists []. split; [constructor|reflexivity].
    + exists [entry ctx INFO (retrieved_line call)].
      split; [by repeat constructor|reflexivity].
    + exists [entry ctx INFO (retrieved_line call)].
      split; [by repeat constructor|reflexivity].
Qed.

(** X5. When a 2xx answer has a body that does not decode, the handler
    raises the decoder's exception.  A get-by-identifier handler has by
    then already written its "Successfully retrieved ..." line, which is
    followed by the ERROR line; a list handler writes the ERROR line
    alone. *)
Theorem an_undecodable_body_is_reported_after_the_success_line
    float_repr config upstream ctx call resp e w :
  api_key_missing config = false ->
  (forall r, upstream r = Responded resp) ->
  is_success resp = true ->
  body resp = Raise e ->
  fst (call_tool float_repr config upstream ctx call w) = Raise e
  /\ logs (snd (call_tool float_repr config upstream ctx call w))
     = logs w
       ++ (if is_list_operation call
           then [entry ctx INFO (announcement float_repr call);
                 entry ctx ERROR (failure_line e)]
           else [entry ctx INFO (announcement float_repr call);
                 entry ctx INFO (retrieved_line call);
                 entry ctx ERROR (failure_line e)]).
Proof.
  intros Hpresent Hanswer Hok Hbody.
  destruct (api_key_missing_false _ Hpresent) as (key & Hk & _).
  destruct (built_params_total call) as (params & Hbuilt).
  rewrite (call_tool_transcript _ _ _ _ _ _ _ _ Hk Hpresent Hbuilt).
  rewrite Hanswer. unfold transcript, is_list_operation. rewrite Hok, Hbody.
  by destruct (found_suffix call).
Qed.

(** [get_event_details("ocd-event/1")] answered 200 with a body that is
    not JSON. *)
Lemma undecodable_body_witness :
  logs (snd (call_tool no_floats (config_with_key "secret")
               (always (answer 200 "OK"
                               (Raise (JSONDecodeError "Expecting value"))))
               None (events_get_event_details "ocd-event/1" None) fresh))
  = [entry None INFO "Getting event details for: ocd-event/1";
     entry None INFO "Successfully retrieved event ocd-event/1";
     entry None ERROR "API error: Expecting value"].
Proof.
  apply (an_undecodable_body_is_reported_after_the_success_line
           no_floats (config_with_key "secret")
           (always (answer 200 "OK" (Raise (JSONDecodeError "Expecting value"))))
           None (events_get_event_details "ocd-event/1" None)
           (answer 200 "OK" (Raise (JSONDecodeError "Expecting value")))
           (JSONDecodeError "Expecting value") fresh).
  - reflexivity.
  - intros r. reflexivity.
  - reflexivity.
  - reflexivity.
Defined.

(** ** What a request may carry *)

Lemma stored_lists_foreign call key :
  key <> "page" -> key <> "per_page" ->
  ~ In key (map fst (list_filters call)) ->
  stored_lists call !! key = None.
Proof.
  intros Hpage Hper Hlist.
  destruct call; unfold stored_lists; simpl in *; try apply lookup_empty;
    repeat (rewrite with_list_other by (intros <-; apply Hlist; tauto));
    by apply paged_other.
Qed.

(** X6. [get_legislators_by_location] sends its two coordinates as [lat]
    and [lng] to /people.geo and nothing else: no [page], no [per_page],
    no other key. *)
Theorem location_lookup_sends_only_lat_and_lng
    float_repr config upstream ctx latitude longitude w :
  api_key_missing config = false ->
  exists r,
    issues (call_tool float_repr config upstream ctx
              (people_get_legislators_by_location latitude longitude)) w [r]
    /\ req_url r = "https://v3.openstates.org/people.geo"
    /\ req_params r !! "lat" = Some (PFloat latitude)
    /\ req_params r !! "lng" = Some (PFloat longitude)
    /\ forall key, key <> "lat" -> key <> "lng" -> req_params r !! key = None.
Proof.
  intros Hpresent.
  destruct (api_key_missing_false _ Hpresent) as (key & Hk & _).
  eexists (request_for _ key _). split.
  - by apply call_tool_issues_one.
  - simpl. repeat split.
    intros other Hlat Hlng.
    rewrite lookup_insert_ne by congruence.
    rewrite lookup_insert_ne by congruence.
    apply lookup_empty.
Qed.

(** [get_legislators_by_location(38.5, -77.0)] *)
Lemma location_lookup_witness :
  exists r,
    issues (call_tool no_floats (config_with_key "secret") unreachable None
              (people_get_legislators_by_location 38.5%float (-77.0)%float))
           fresh [r]
    /\ req_params r !! "page" = None.
Proof.
  destruct (location_lookup_sends_only_lat_and_lng
              no_floats (config_with_key "secret") unreachable None
              38.5%float (-77.0)%float fresh eq_refl)
    as (r & Hsent & _ & _ & _ & Hnothing_else).
  exists r. split; [exact Hsent|]. apply Hnothing_else; discriminate.
Defined.

(** X7. A get-by-identifier operation sends at most one parameter.  Given
    a non-empty [include] list it sends that list under [include]; given
    an empty list or none, it sends no parameter at all. *)
Theorem get_operations_send_include_or_nothing
    float_repr config upstream ctx call include w :
  api_key_missing config = false ->
  include_argument call = Some include ->
  exists r,
    issues (call_tool float_repr config upstream ctx call) w [r]
    /\ req_params r !! "include"
       = match include with
         | Some (item :: rest) => Some (PList (item :: rest))
         | _ => None
         end
    /\ forall key, key <> "include" -> req_params r !! key = None.
Proof.
  intros Hpresent Hinclude.
  destruct (api_key_missing_false _ Hpresent) as (key & Hk & _).
  exists (request_for call key (include_only include)). split.
  - apply call_tool_issues_one; try assumption.
    destruct call; try discriminate; by injection Hinclude as ->.
  - simpl. unfold include_only. split.
    + destruct include as [[|item rest]|]; simpl; try apply lookup_empty.
      apply lookup_insert_eq.
    + intros other Hother.
      destruct include as [[|item rest]|]; simpl; try apply lookup_empty.
      rewrite lookup_insert_ne by congruence. apply lookup_empty.
Qed.

(** [get_committee_details("c1", include=[])]: the empty list is dropped. *)
Lemma get_include_witness :
  exists r,
    issues (call_tool no_floats (config_with_key "secret") unreachable None
              (committees_get_committee_details "c1" (Some []))) fresh [r]
    /\ req_params r !! "include" = None.
Proof.
  destruct (get_operations_send_include_or_nothing
              no_floats (config_with_key "secret") unreachable None
              (committees_get_committee_details "c1" (Some [])) (Some []) fresh
              eq_refl eq_refl)
    as (r & Hsent & Hinclude & _).
  exists r. split; assumption.
Defined.

(** X8. A list operation sends [page] exactly as the caller gave it: it
    is neither clamped nor checked, so zero and negative pages go out as
    they are. *)
Theorem page_is_sent_as_given
    float_repr config upstream ctx call page w :
  api_key_missing config = false ->
  page_of call = Some page ->
  exists r,
    issues (call_tool float_repr config upstream ctx call) w [r]
    /\ req_params r !! "page" = Some (PInt page).
Proof.
  intros Hpresent Hpage.
  assert (Hlist : is_list_operation call = true)
    by (destruct call; try discriminate; reflexivity).
  destruct (list_operation_request float_repr config upstream ctx call w Hpresent Hlist)
    as (r & Hsent & Hparams).
  exists r. split; [exact Hsent|].
  rewrite Hparams, sent_other by (apply paging_key_not_scalar; by left).
  by apply stored_page.
Qed.

(** [search_events(page=-3)] *)
Lemma page_witness :
  exists r,
    issues (call_tool no_floats (config_with_key "secret") unreachable None
              (events_search_events
                 {| events.jurisdiction := None; events.deleted := false;
                    events.before := None; events.after := None;
                    events.require_bills := false; events.include := None;
                    events.page := -3; events.per_page := 20 |}))
           fresh [r]
    /\ req_params r !! "page" = Some (PInt (-3)).
Proof.
  apply (page_is_sent_as_given no_floats (config_with_key "secret") unreachable None
           (events_search_events
              {| events.jurisdiction := None; events.deleted := false;
                 events.before := None; events.after := None;
                 events.require_bills := false; events.include := None;
                 events.page := -3; events.per_page := 20 |})
           (-3) fresh); reflexivity.
Defined.

(** X9. A list operation sends no parameter of its own invention: every
    key of the request's parameters is [page], [per_page], or the name of
    one of the handler's list-valued or scalar filters. *)
Theorem list_operations_send_only_their_own_keys
    float_repr config upstream ctx call w :
  api_key_missing config = false ->
  is_list_operation call = true ->
  exists r,
    issues (call_tool float_repr config upstream ctx call) w [r]
    /\ forall key, is_Some (req_params r !! key) ->
         key = "page" \/ key = "per_page"
         \/ In key (map fst (list_filters call))
         \/ In key (map fst (scalar_filters call)).
Proof.
  intros Hpresent Hlist.
  destruct (list_operation_request float_repr config upstream ctx call w Hpresent Hlist)
    as (r & Hsent & Hparams).
  exists r. split; [exact Hsent|]. intros key Hthere. rewrite Hparams in Hthere.
  destruct (decide (key = "page")) as [|Hpage]; [tauto|].
  destruct (decide (key = "per_page")) as [|Hper]; [tauto|].
  destruct (in_dec String.string_dec key (map fst (list_filters call))) as [|Hnot_list];
    [tauto|].
  destruct (in_dec String.string_dec key (map fst (scalar_filters call))) as [|Hnot_scalar];
    [tauto|].
  exfalso. rewrite sent_other in Hthere by exact Hnot_scalar.
  rewrite stored_lists_foreign in Hthere by assumption.
  by destruct Hthere.
Qed.

(** [get_jurisdictions()] sends no [jurisdiction] parameter. *)
Lemma own_keys_witness :
  exists r,
    issues (call_tool no_floats (config_with_key "secret") unreachable None
              (jurisdictions_get_jurisdictions jurisdictions.defaults)) fresh [r]
    /\ ~ is_Some (req_params r !! "jurisdiction").
Proof.
  destruct (list_operations_send_only_their_own_keys
              no_floats (config_with_key "secret") unreachable None
              (jurisdictions_get_jurisdictions jurisdictions.defaults) fresh
              eq_refl eq_refl)
    as (r & Hsent & Hown).
  exists r. split; [exact Hsent|]. intros Hthere.
  destruct (Hown _ Hthere) as [H|[H|[H|H]]]; try discriminate H;
    simpl in H; repeat (destruct H as [H|H]; [discriminate H|]); exact H.
Defined.

(** X10. A list-valued filter given as an empty list is left out of the
    request, as if it had not been given: no key with an empty value is
    sent. *)
Theorem empty_list_filters_are_left_out
    float_repr config upstream ctx call key w :
  api_key_missing config = false ->
  In (key, Some []) (list_filters call) ->
  exists r,
    issues (call_tool float_repr config upstream ctx call) w [r]
    /\ req_params r !! key = None.
Proof.
  intros Hpresent Hin.
  assert (Hlist : is_list_operation call = true)
    by (destruct call; try reflexivity; destruct Hin).
  destruct (list_operation_request float_repr config upstream ctx call w Hpresent Hlist)
    as (r & Hsent & Hparams).
  exists r. split; [exact Hsent|].
  rewrite Hparams, sent_other by (eapply list_key_not_scalar; exact Hin).
  by rewrite (stored_list_lookup _ _ _ Hin).
Qed.

(** [search_bills(subject=[])] *)
Lemma empty_list_witness :
  exists r,
    issues (call_tool no_floats (config_with_key "secret") unreachable None
              (bills_search_bills
                 {| bills.jurisdiction := None; bills.session := None;
                    bills.chamber := None; bills.identifier := None;
                    bills.classification := None; bills.subject := Some [];
                    bills.updated_since := None; bills.created_since := None;
                    bills.action_since := None; bills.sort := "updated_desc";
                    bills.sponsor := None; bills.sponsor_classification := None;
                    bills.q := None; bills.include := None;
                    bills.page := 1; bills.per_page := 10 |}))
           fresh [r]
    /\ req_params r !! "subject" = None.
Proof.
  apply (empty_list_filters_are_left_out no_floats (config_with_key "secret")
           unreachable None
           (bills_search_bills
              {| bills.jurisdiction := None; bills.session := None;
                 bills.chamber := None; bills.identifier := None;
                 bills.classification := None; bills.subject := Some [];
                 bills.updated_since := None; bills.created_since := None;
                 bills.action_since := None; bills.sort := "updated_desc";
                 bills.sponsor := None; bills.sponsor_classification := None;
                 bills.q := None; bills.include := None;
                 bills.page := 1; bills.per_page := 10 |})
           "subject" fresh).
  - reflexivity.
  - simpl. tauto.
Defined.

(** ** The status report *)

(** X11. The [api_configured] flag of the status report tells what the
    tools will do: when it is true every tool call sends its request, and
    when it is false every tool call raises the missing-key [ValueError]
    and sends nothing. *)
Theorem status_tells_whether_the_tools_have_a_key config h w report :
  fst (status config h w) = Ok report ->
  (api_configured (server_section report) = true ->
   forall float_repr upstream ctx call w',
     exists r, issues (call_tool float_repr config upstream ctx call) w' [r])
  /\ (api_configured (server_section report) = false ->
      forall float_repr upstream ctx call w',
        issues (call_tool float_repr config upstream ctx call) w' []
        /\ exists e,
             fst (call_tool float_repr config upstream ctx call w') = Raise e
             /\ is_ValueError e = true).
Proof.
  intros Hreturned.
  destruct (status_returned _ _ _ _ Hreturned) as (_ & _ & _ & _ & _ & _ & Hflag).
  rewrite Hflag. split.
  - intros Hset float_repr upstream ctx call w'.
    apply negb_true_iff in Hset.
    destruct (api_key_missing_false _ Hset) as (key & Hk & _).
    destruct (built_params_total call) as (params & Hbuilt).
    exists (request_for call key params). by apply call_tool_issues_one.
  - intros Hunset float_repr upstream ctx call w'.
    apply negb_false_iff in Hunset. unfold issues.
    rewrite (call_tool_without_key_transcript _ _ _ _ _ _ Hunset). simpl.
    split; [by rewrite app_nil_r|].
    eexists. split; [reflexivity|]. by destruct call.
Qed.

(** With the default configuration the flag is false and
    [get_jurisdictions()] sends nothing. *)
Lemma status_flag_witness :
  exists report,
    fst (status default_config ninety_minutes_in fresh) = Ok report
    /\ api_configured (server_section report) = false
    /\ issues (call_tool no_floats default_config unreachable None
                 (jurisdictions_get_jurisdictions jurisdictions.defaults))
              fresh [].
Proof.
  eexists. split; [reflexivity|]. split; [reflexivity|].
  apply (status_tells_whether_the_tools_have_a_key
           default_config ninety_minutes_in fresh _ eq_refl).
  reflexivity.
Defined.

(** X12. The [api_base] the status report shows is the host the tools
    call: every request of every tool goes to a URL that starts with that
    string followed by a slash, whatever [openstates_base_url] says. *)
Theorem status_reports_the_host_the_tools_call
    config h w report float_repr upstream ctx call w' :
  fst (status config h w) = Ok report ->
  exists batch,
    issues (call_tool float_repr config upstream ctx call) w' batch
    /\ Forall (fun r => String.prefix (api_base (server_section report) +:+ "/")
                                      (req_url r) = true) batch.
Proof.
  intros Hreturned.
  destruct (status_returned _ _ _ _ Hreturned) as (_ & _ & _ & _ & _ & Hbase & _).
  rewrite Hbase.
  destruct (at_most_one_get_shape float_repr config upstream ctx call w')
    as (batch & Hsent & Hall).
  exists batch. split; [exact Hsent|].
  eapply Forall_impl; [exact Hall|]. intros r (_ & Hurl & _).
  rewrite Hurl. by destruct call.
Qed.

(** A configuration whose base URL points elsewhere. *)
Lemma status_host_witness :
  exists batch,
    issues (call_tool no_floats
              {| host := "0.0.0.0"; mcp_port := 8795; openstates_log_level := "INFO";
                 openstates_debug := false; environment := "production";
                 openstates_base_url := "http://localhost:9999";
                 openstates_api_key := Some "secret"; openstates_timeout := 30;
                 openstates_connect_timeout := 10; openstates_read_timeout := 30;
                 openstates_rate_limit := 50; openstates_cache_ttl := 300;
                 openstates_max_retries := 3; openstates_retry_delay := 1.0%float |}
              unreachable None invalid_bill) fresh batch
    /\ Forall (fun r => String.prefix "https://v3.openstates.org/" (req_url r) = true)
              batch.
Proof.
  apply (status_reports_the_host_the_tools_call
           {| host := "0.0.0.0"; mcp_port := 8795; openstates_log_level := "INFO";
              openstates_debug := false; environment := "production";
              openstates_base_url := "http://localhost:9999";
              openstates_api_key := Some "secret"; openstates_timeout := 30;
              openstates_connect_timeout := 10; openstates_read_timeout := 30;
              openstates_rate_limit := 50; openstates_cache_ttl := 300;
              openstates_max_retries := 3; openstates_retry_delay := 1.0%float |}
           ninety_minutes_in fresh _ no_floats unreachable None invalid_bill fresh
           eq_refl).
Defined.

(** X13. Whatever the clocks read, the three numbers [status] prints as
    the uptime are a decomposition of the whole seconds of uptime:
    hours * 3600 + minutes * 60 + seconds gives the uptime back, minutes
    and seconds lie in 0..59, and hours (which are not wrapped into days)
    are negative exactly when the uptime is. *)
Theorem uptime_parts_recompose h :
  exists hours minutes seconds,
    uptime_parts h = (hours, minutes, seconds)
    /\ hours * 3600 + minutes * 60 + seconds = uptime_seconds h
    /\ 0 <= minutes < 60
    /\ 0 <= seconds < 60
    /\ (hours < 0 <-> uptime_seconds h < 0).
Proof.
  exists (uptime_seconds h / 3600), (uptime_seconds h mod 3600 / 60),
         ((uptime_seconds h mod 3600) mod 60).
  split; [reflexivity|].
  pose proof (Z.div_mod (uptime_seconds h) 3600 ltac:(lia)) as Hhours.
  pose proof (Z.div_mod (uptime_seconds h mod 3600) 60 ltac:(lia)) as Hminutes.
  pose proof (Z.mod_pos_bound (uptime_seconds h) 3600 ltac:(lia)) as Hrem.
  pose proof (Z.mod_pos_bound (uptime_seconds h mod 3600) 60 ltac:(lia)) as Hsec.
  assert (0 <= uptime_seconds h mod 3600 / 60 < 60) as Hmin.
  { split; [apply Z.div_pos; lia | apply Z.div_lt_upper_bound; lia]. }
  repeat split; try lia.
Qed.

(** ** The printed uptime *)

Lemma format_02d_two_digits n :
  0 <= n < 100 -> format_02d n = two_digits n.
Proof.
  intros Hrange.
  assert (Hall : forallb (fun k => String.eqb (format_02d k) (two_digits k))
                         (seqZ 0 100) = true) by (vm_compute; reflexivity).
  rewrite forallb_forall in Hall.
  apply String.eqb_eq, Hall, list_elem_of_In, elem_of_seqZ. lia.
Qed.

(** X14. During the first hundred hours of a process whose clock is not
    behind its creation time, the uptime is printed as HH:MM:SS: the two
    decimal digits of the hours, a colon, the two digits of the minutes,
    a colon, the two digits of the seconds, eight characters in all. *)
Theorem uptime_is_printed_as_two_digit_fields config h w report :
  fst (status config h w) = Ok report ->
  process_create_time h <= clock_now h < process_create_time h + 360000 * 1000000 ->
  exists hours minutes seconds,
    uptime_parts h = (hours, minutes, seconds)
    /\ 0 <= hours < 100 /\ 0 <= minutes < 60 /\ 0 <= seconds < 60
    /\ process_uptime (system_section report)
       = two_digits hours +:+ ":" +:+ two_digits minutes +:+ ":"
         +:+ two_digits seconds
    /\ String.length (process_uptime (system_section report)) = 8%nat.
Proof.
  intros Hreturned Hclock.
  destruct (status_returned _ _ _ _ Hreturned) as (_ & _ & _ & Huptime & _).
  rewrite Huptime. unfold uptime_parts, divmod, format_uptime.
  assert (Hup : 0 <= uptime_seconds h < 360000).
  { unfold uptime_seconds. split; [apply Z.quot_pos; lia|].
    apply Z.quot_lt_upper_bound; lia. }
  pose proof (Z.mod_pos_bound (uptime_seconds h) 3600 ltac:(lia)) as Hrem.
  pose proof (Z.mod_pos_bound (uptime_seconds h mod 3600) 60 ltac:(lia)) as Hsec.
  assert (Hhours : 0 <= uptime_seconds h / 3600 < 100)
    by (split; [apply Z.div_pos; lia | apply Z.div_lt_upper_bound; lia]).
  assert (Hminutes : 0 <= uptime_seconds h mod 3600 / 60 < 60)
    by (split; [apply Z.div_pos; lia | apply Z.div_lt_upper_bound; lia]).
  exists (uptime_seconds h / 3600), (uptime_seconds h mod 3600 / 60),
         ((uptime_seconds h mod 3600) mod 60).
  split; [reflexivity|]. split; [exact Hhours|]. split; [exact Hminutes|].
  split; [exact Hsec|].
  rewrite (format_02d_two_digits (uptime_seconds h / 3600)) by exact Hhours.
  rewrite (format_02d_two_digits (uptime_seconds h mod 3600 / 60)) by lia.
  rewrite (format_02d_two_digits ((uptime_seconds h mod 3600) mod 60)) by lia.
  split; reflexivity.
Qed.

(** Ninety minutes and five seconds in: "01:30:05". *)
Lemma uptime_print_witness :
  exists report,
    fst (status default_config ninety_minutes_in fresh) = Ok report
    /\ process_uptime (system_section report) = "01:30:05".
Proof.
  eexists. split; [reflexivity|].
  destruct (uptime_is_printed_as_two_digit_fields default_config ninety_minutes_in
              fresh _ eq_refl)
    as (hours & minutes & seconds & Hparts & _ & _ & _ & Hprinted & _).
  - vm_compute. split; [discriminate | reflexivity].
  - injection Hparts as <- <- <-. exact Hprinted.
Defined.

(** ** Detecting Docker *)

Lemma append_cons c s t : String c s +:+ t = String c (s +:+ t).
Proof. reflexivity. Qed.

Lemma append_empty t : "" +:+ t = t.
Proof. reflexivity. Qed.

Lemma prefix_spec needle : forall line,
  String.prefix needle line = true <-> exists post, line = needle +:+ post.
Proof.
  induction needle as [|a needle IH]; intros line; simpl.
  - destruct line; (split; [intros _; by eexists | reflexivity]).
  - destruct line as [|b line]; simpl.
    + split; [discriminate|]. intros (post & Hpost).
      rewrite append_cons in Hpost. discriminate Hpost.
    + destruct (Ascii.ascii_dec a b) as [<-|Hne].
      * rewrite IH. split; intros (post & Hpost); exists post.
        -- rewrite append_cons. by rewrite Hpost.
        -- rewrite append_cons in Hpost. by injection Hpost.
      * split; [discriminate|]. intros (post & Hpost).
        rewrite append_cons in Hpost. congruence.
Qed.

Lemma contains_unfold needle line :
  contains needle line
  = String.prefix needle line
    || match line with
       | EmptyString => false
       | String _ rest => contains needle rest
       end.
Proof. by destruct line. Qed.

Lemma contains_spec needle line :
  contains needle line = true
  <-> exists pre post, line = pre +:+ needle +:+ post.
Proof.
  induction line as [|c rest IH]; rewrite contains_unfold.
  - rewrite orb_false_r, prefix_spec. split.
    + intros (post & Hpost). by exists "", post.
    + intros (pre & post & Hline). exists post.
      destruct pre; [exact Hline|].
      rewrite append_cons in Hline. discriminate Hline.
  - rewrite orb_true_iff, prefix_spec, IH. split.
    + intros [(post & Hpost) | (pre & post & Hrest)].
      * by exists "", post.
      * exists (String c pre), post. rewrite append_cons. by rewrite Hrest.
    + intros (pre & post & Hline). destruct pre as [|c' pre].
      * left. by exists post.
      * right. exists pre, post. rewrite append_cons in Hline. by injection Hline.
Qed.

(** X15. The status report says the server runs in Docker exactly when
    the file /.dockerenv exists or some line of /proc/1/cgroup has
    "docker" somewhere in it, and its [runtime] label always agrees with
    its [docker] flag. *)
Theorem docker_is_read_off_two_files config h w report :
  fst (status config h w) = Ok report ->
  (docker (environment_section report) = true
   <-> dockerenv_exists h = true
       \/ exists lines line pre post,
            proc_1_cgroup h = Some lines /\ In line lines
            /\ line = pre +:+ "docker" +:+ post)
  /\ runtime (environment_section report)
     = (if docker (environment_section report) then "docker" else "native").
Proof.
  intros Hreturned.
  destruct (status_returned _ _ _ _ Hreturned) as (Hdocker & _ & Hruntime & _).
  split; [|exact Hruntime].
  rewrite (is_docker_returned _ _ Hdocker).
  split; (intros [Hfile|Hcgroup]; [by left|right]).
  - destruct Hcgroup as (lines & line & Hlines & Hin & Hfound).
    apply contains_spec in Hfound as (pre & post & Hline).
    by exists lines, line, pre, post.
  - destruct Hcgroup as (lines & line & pre & post & Hlines & Hin & Hline).
    exists lines, line. split; [exact Hlines|]. split; [exact Hin|].
    apply contains_spec. by exists pre, post.
Qed.

(** A host without /.dockerenv whose cgroup file names a docker slice. *)
Lemma docker_witness :
  exists report,
    fst (status default_config cgroup_names_docker fresh) = Ok report
    /\ docker (environment_section report) = true
    /\ runtime (environment_section report) = "docker".
Proof.
  eexists. split; [reflexivity|]. split; [reflexivity|].
  apply (docker_is_read_off_two_files default_config cgroup_names_docker fresh
           _ eq_refl).
Defined.

(** X16. The status report shows whether a key is set and nothing more
    of it: two configurations with the same host and port, both with a
    key or both without, get the same report, whatever the keys are. *)
Theorem status_shows_only_whether_a_key_is_set c1 c2 h w :
  host c1 = host c2 ->
  mcp_port c1 = mcp_port c2 ->
  api_key_missing c1 = api_key_missing c2 ->
  status c1 h w = status c2 h w.
Proof.
  unfold api_key_missing, status. intros -> -> Hflag.
  apply (f_equal negb) in Hflag. rewrite !negb_involutive in Hflag.
  by rewrite Hflag.
Qed.

(** Two different keys. *)
Lemma status_key_witness :
  status (config_with_key "first-key") ninety_minutes_in fresh
  = status (config_with_key "another") ninety_minutes_in fresh.
Proof.
  apply (status_shows_only_whether_a_key_is_set
           (config_with_key "first-key") (config_with_key "another")
           ninety_minutes_in fresh); reflexivity.
Defined.

(** ** The key and the logging sink *)

(** X17. The configured key travels in the [x-api-key] header, which is
    the only header set, and nowhere else: against an upstream that gives
    the same answer, two configured keys lead to the same result, the same
    log lines, and requests with the same URL and parameters. *)
Theorem the_key_travels_only_in_the_header
    float_repr c1 c2 key1 key2 outcome ctx call w :
  openstates_api_key c1 = Some key1 -> key1 <> "" ->
  openstates_api_key c2 = Some key2 -> key2 <> "" ->
  fst (call_tool float_repr c1 (fun _ => outcome) ctx call w)
  = fst (call_tool float_repr c2 (fun _ => outcome) ctx call w)
  /\ logs (snd (call_tool float_repr c1 (fun _ => outcome) ctx call w))
     = logs (snd (call_tool float_repr c2 (fun _ => outcome) ctx call w))
  /\ exists r1 r2,
       issues (call_tool float_repr c1 (fun _ => outcome) ctx call) w [r1]
       /\ issues (call_tool float_repr c2 (fun _ => outcome) ctx call) w [r2]
       /\ req_headers r1 = <["x-api-key" := key1]> ∅
       /\ req_headers r2 = <["x-api-key" := key2]> ∅
       /\ req_url r1 = req_url r2
       /\ req_params r1 = req_params r2.
Proof.
  intros Hk1 Hne1 Hk2 Hne2.
  assert (Hp1 : api_key_missing c1 = false).
  { unfold api_key_missing. rewrite Hk1. simpl.
    by destruct (String.eqb_spec key1 ""). }
  assert (Hp2 : api_key_missing c2 = false).
  { unfold api_key_missing. rewrite Hk2. simpl.
    by destruct (String.eqb_spec key2 ""). }
  destruct (built_params_total call) as (params & Hbuilt).
  unfold issues.
  rewrite (call_tool_transcript _ c1 _ _ _ _ _ _ Hk1 Hp1 Hbuilt).
  rewrite (call_tool_transcript _ c2 _ _ _ _ _ _ Hk2 Hp2 Hbuilt).
  simpl. repeat split.
  exists (request_for call key1 params), (request_for call key2 params).
  repeat split.
Qed.

(** Two keys, one unreachable upstream. *)
Lemma header_witness :
  logs (snd (call_tool no_floats (config_with_key "first-key")
               (fun _ => Failed (RequestError "unreachable")) None
               budget_search fresh))
  = logs (snd (call_tool no_floats (config_with_key "another")
                 (fun _ => Failed (RequestError "unreachable")) None
                 budget_search fresh)).
Proof.
  apply (the_key_travels_only_in_the_header no_floats
           (config_with_key "first-key") (config_with_key "another")
           "first-key" "another" (Failed (RequestError "unreachable")) None
           budget_search fresh); (reflexivity || discriminate).
Defined.

(** X18. Passing a [Context] or not changes where the log lines go and
    nothing else: the result, the requests sent, and the level and text of
    every log line are the same for every choice of sink, and all the
    lines of one call go to the one sink chosen. *)
Theorem the_sink_changes_nothing_else float_repr config upstream call w :
  exists outcome lines batch,
    forall ctx,
      call_tool float_repr config upstream ctx call w
      = (outcome,
         {| logs := logs w ++ map (fun line => {| entry_sink := sink_of ctx;
                                                  entry_level := fst line;
                                                  entry_message := snd line |})
                                  lines;
            requests := requests w ++ batch |}).
Proof.
  destruct (api_key_missing config) eqn:Hkey.
  - do 2 eexists. exists []. intros ctx.
    rewrite (call_tool_without_key_transcript _ _ _ _ _ _ Hkey).
    by rewrite app_nil_r.
  - destruct (api_key_missing_false _ Hkey) as (key & Hk & _).
    destruct (built_params_total call) as (params & Hbuilt).
    do 3 eexists. intros ctx.
    by rewrite (call_tool_transcript _ _ _ _ _ _ _ _ Hk Hkey Hbuilt).
Qed.

(** X19. A list operation answered 2xx with an object that has no
    [results] member returns that object and logs "Found 0 ...": a
    missing list counts as empty. *)
Theorem a_body_without_results_counts_as_zero
    float_repr config upstream ctx call suffix resp members w :
  api_key_missing config = false ->
  found_suffix call = Some suffix ->
  (forall r, upstream r = Responded resp) ->
  is_success resp = true ->
  body resp = Ok (JObj members) ->
  ~ In "results" (map fst members) ->
  fst (call_tool float_repr config upstream ctx call w) = Ok (JObj members)
  /\ logs (snd (call_tool float_repr config upstream ctx call w))
     = logs w ++ [entry ctx INFO (announcement float_repr call);
                  entry ctx INFO ("Found 0" +:+ suffix)].
Proof.
  intros Hpresent Hsuffix Hanswer Hok Hbody Hmissing.
  destruct (api_key_missing_false _ Hpresent) as (key & Hk & _).
  destruct (built_params_total call) as (params & Hbuilt).
  rewrite (call_tool_transcript _ _ _ _ _ _ _ _ Hk Hpresent Hbuilt).
  rewrite Hanswer. unfold transcript. rewrite Hok, Hsuffix, Hbody.
  assert (Hcount : results_count (JObj members) = Ok 0%nat).
  { unfold results_count. simpl.
    assert (Hget : dict_get members "results" (JArr []) = JArr []).
    { clear Hbody. induction members as [|[k v] rest IH]; [reflexivity|].
      simpl in *. destruct (String.eqb_spec k "results") as [->|Hne]; [tauto|].
      apply IH. tauto. }
    by rewrite Hget. }
  rewrite Hcount. split; reflexivity.
Qed.

(** [search_committees()] answered with [{"detail": "none"}]. *)
Lemma missing_results_witness :
  logs (snd (call_tool no_floats (config_with_key "secret")
               (always (ok_with (JObj [("detail", JStr "none")]))) None
               (committees_search_committees committees.defaults) fresh))
  = [entry None INFO "Searching committees for jurisdiction: None";
     entry None INFO "Found 0 committees"].
Proof.
  apply (a_body_without_results_counts_as_zero no_floats (config_with_key "secret")
           (always (ok_with (JObj [("detail", JStr "none")]))) None
           (committees_search_committees committees.defaults) " committees"
           (ok_with (JObj [("detail", JStr "none")]))
           [("detail", JStr "none")] fresh);
    try reflexivity.
  simpl. intros [H|H]; [discriminate H | exact H].
Defined.

(** ** Identifiers in the URL *)

(** X20. Path identifiers are put into the URL as they are, without
    escaping: [get_bill_by_id] given an identifier that contains a slash
    sends the very request that [get_bill_details] sends for the
    jurisdiction "ocd-bill" and the two halves of that identifier. *)
Theorem path_identifiers_are_not_escaped
    float_repr config upstream ctx session bill_id include w :
  api_key_missing config = false ->
  exists r,
    issues (call_tool float_repr config upstream ctx
              (bills_get_bill_by_id (session +:+ "/" +:+ bill_id) include)) w [r]
    /\ issues (call_tool float_repr config upstream ctx
                 (bills_get_bill_details "ocd-bill" session bill_id include)) w [r].
Proof.
  intros Hpresent.
  destruct (api_key_missing_false _ Hpresent) as (key & Hk & _).
  exists (request_for (bills_get_bill_by_id (session +:+ "/" +:+ bill_id) include)
                      key (include_only include)).
  split.
  - by apply call_tool_issues_one.
  - by apply (call_tool_issues_one float_repr config upstream ctx
                (bills_get_bill_details "ocd-bill" session bill_id include)).
Qed.

(** [get_bill_by_id("2023/HB1")] and [get_bill_details("ocd-bill", "2023", "HB1")] *)
Lemma path_identifiers_witness :
  exists r,
    issues (call_tool no_floats (config_with_key "secret") unreachable None
              (bills_get_bill_by_id "2023/HB1" None)) fresh [r]
    /\ issues (call_tool no_floats (config_with_key "secret") unreachable None
                 (bills_get_bill_details "ocd-bill" "2023" "HB1" None)) fresh [r].
Proof.
  apply (path_identifiers_are_not_escaped no_floats (config_with_key "secret")
           unreachable None "2023" "HB1" None fresh).
  reflexivity.
Defined.
